(** * View engagement scraper: a shallow embedding of
      [View_engagement_scraper_old.py] and the properties of its four
      functions ([extract_video_id], [get_youtube_stats],
      [get_airtable_records], [batch_update_airtable]) and of [main].

    Conventions.
    - A Python [str] is a [string]: the sequence of its UTF-8 bytes.  Every
      separator the script and [urllib.parse] search for is ASCII, so the
      byte-wise searches below agree with Python's code point-wise ones.
    - A value decoded from JSON is a [value]; a JSON number is an integer
      or a float, a float being a binary fraction, an infinity or NaN.
    - Code that can raise returns a [result]; code that talks to the network
      runs in the monad [M], whose state is the trace of requests and pauses
      issued so far.
    - The functions of [urllib.parse] follow CPython 3.11.  Four pieces of
      the interpreter and its library depend on Unicode tables or on the
      patch level and are taken as parameters of the section: [unquote], the
      check of a bracketed netloc, the NFKC check of a non-ASCII netloc, and
      the step of [int] that turns the Unicode digits and spaces of a
      non-ASCII [str] into ASCII ones. *)

From Stdlib Require Import String Ascii List Bool Arith ZArith Lia.
Import ListNotations.
Local Open Scope string_scope.
Local Open Scope list_scope.

(** ** Exceptions and results *)

Inductive exn : Type :=
| ValueError
| TypeError
| KeyError
| IndexError
| AttributeError
| JSONDecodeError
| ConnectionError
| OverflowError.

Inductive result (A : Type) : Type :=
| Ok (a : A)
| Raise (e : exn).
Arguments Ok {A} a.
Arguments Raise {A} e.

Definition rbind {A B} (r : result A) (k : A -> result B) : result B :=
  match r with
  | Ok a => k a
  | Raise e => Raise e
  end.

Notation "'let?' x ':=' r 'in' k" := (rbind r (fun x => k))
  (at level 10, x pattern, r at level 100, k at level 200).

(** ** Python values (what [response.json()] returns)

    A dict is the list of its items in insertion order, with distinct
    keys. *)

(** A Python float: the binary fraction [m * 2 ^ e] (the two zeros are not
    told apart), an infinity, or NaN. *)
Inductive pyfloat : Type :=
| FFinite (m e : Z)
| FInf (negative : bool)
| FNaN.

#[warnings="-register-all"]
Inductive value : Type :=
| PNone
| PBool (b : bool)
| PInt (z : Z)
| PFloat (f : pyfloat)
| PStr (s : string)
| PList (l : list value)
| PDict (kv : list (string * value)).

(** Python truthiness: [not v] is [negb (truthy v)]. *)
Definition truthy (v : value) : bool :=
  match v with
  | PNone => false
  | PBool b => b
  | PInt z => negb (Z.eqb z 0)
  | PFloat (FFinite m _) => negb (Z.eqb m 0)
  | PFloat _ => true
  | PStr s => negb (String.eqb s "")
  | PList l => match l with [] => false | _ => true end
  | PDict kv => match kv with [] => false | _ => true end
  end.

(** [d.get(k)] on a decoded JSON object: the first binding of [k]. *)
Fixpoint dict_get (k : string) (kv : list (string * value)) : option value :=
  match kv with
  | [] => None
  | (k', v) :: rest => if String.eqb k k' then Some v else dict_get k rest
  end.

(** ** Python string methods *)

Module PyStr.

(** [c in s] for a one-character [c]. *)
Fixpoint mem_char (c : ascii) (s : string) : bool :=
  match s with
  | "" => false
  | String a t => Ascii.eqb a c || mem_char c t
  end.

(** [s.startswith(p)]. *)
Fixpoint startswith (p s : string) : bool :=
  match p, s with
  | "", _ => true
  | String _ _, "" => false
  | String a p', String b s' => Ascii.eqb a b && startswith p' s'
  end.

(** [sub in s]. *)
Fixpoint contains (sub s : string) : bool :=
  startswith sub s ||
  match s with
  | "" => false
  | String _ t => contains sub t
  end.

(** [s[:n]] and [s[n:]] for [n >= 0]. *)
Fixpoint take (n : nat) (s : string) : string :=
  match n, s with
  | S k, String a t => String a (take k t)
  | _, _ => ""
  end.

Fixpoint drop (n : nat) (s : string) : string :=
  match n, s with
  | S k, String _ t => drop k t
  | _, _ => s
  end.

(** [s.find(c)]: [None] stands for Python's [-1]. *)
Fixpoint find (c : ascii) (s : string) : option nat :=
  match s with
  | "" => None
  | String a t => if Ascii.eqb a c then Some 0
                  else option_map S (find c t)
  end.

(** [s.find(c, start)]. *)
Definition find_from (c : ascii) (start : nat) (s : string) : option nat :=
  option_map (fun i => start + i) (find c (drop start s)).

(** [s.rfind(c)]. *)
Fixpoint rfind (c : ascii) (s : string) : option nat :=
  match s with
  | "" => None
  | String a t =>
      match rfind c t with
      | Some i => Some (S i)
      | None => if Ascii.eqb a c then Some 0 else None
      end
  end.

(** [s.lstrip(chars)], [s.rstrip(chars)], [s.strip(chars)]. *)
Fixpoint lstrip (chars s : string) : string :=
  match s with
  | "" => ""
  | String a t => if mem_char a chars then lstrip chars t else s
  end.

Fixpoint rstrip (chars s : string) : string :=
  match s with
  | "" => ""
  | String a t =>
      match rstrip chars t with
      | "" => if mem_char a chars then "" else String a ""
      | t' => String a t'
      end
  end.

Definition strip (chars s : string) : string := rstrip chars (lstrip chars s).

(** [s.replace(c, "")] for a one-character [c]. *)
Fixpoint remove_char (c : ascii) (s : string) : string :=
  match s with
  | "" => ""
  | String a t => if Ascii.eqb a c then remove_char c t
                  else String a (remove_char c t)
  end.

(** [s.replace(c, d)] for one-character [c] and [d]. *)
Fixpoint replace_char (c d : ascii) (s : string) : string :=
  match s with
  | "" => ""
  | String a t => String (if Ascii.eqb a c then d else a) (replace_char c d t)
  end.

(** [s.split(c, 1)] when [c in s]: the text before and after the first [c];
    [None] when [c] does not occur (Python then returns the one-element
    list [[s]]). *)
Fixpoint split_once (c : ascii) (s : string) : option (string * string) :=
  match s with
  | "" => None
  | String a t =>
      if Ascii.eqb a c then Some ("", t)
      else match split_once c t with
           | Some (l, r) => Some (String a l, r)
           | None => None
           end
  end.

Definition cons_head (a : ascii) (l : list string) : list string :=
  match l with
  | [] => [String a ""]
  | h :: r => String a h :: r
  end.

(** [s.split(sep)] for a non-empty [sep]: leftmost, non-overlapping
    occurrences.  [skip] counts the characters of a separator that was
    matched and is still to be passed over. *)
Fixpoint split_aux (sep s : string) (skip : nat) : list string :=
  match s with
  | "" => [""]
  | String a t =>
      match skip with
      | S k => split_aux sep t k
      | O => if startswith sep s
             then "" :: split_aux sep t (String.length sep - 1)
             else cons_head a (split_aux sep t 0)
      end
  end.

Definition split (sep s : string) : list string := split_aux sep s 0.

Definition is_upper (a : ascii) : bool :=
  Nat.leb 65 (nat_of_ascii a) && Nat.leb (nat_of_ascii a) 90.
Definition is_lower (a : ascii) : bool :=
  Nat.leb 97 (nat_of_ascii a) && Nat.leb (nat_of_ascii a) 122.
Definition is_digit (a : ascii) : bool :=
  Nat.leb 48 (nat_of_ascii a) && Nat.leb (nat_of_ascii a) 57.

(** [c.isascii() and c.isalpha()]. *)
Definition is_ascii_alpha (a : ascii) : bool := is_upper a || is_lower a.

(** [s.isascii()]. *)
Fixpoint isascii (s : string) : bool :=
  match s with
  | "" => true
  | String a t => Nat.ltb (nat_of_ascii a) 128 && isascii t
  end.

(** [s.lower()] on ASCII letters. *)
Fixpoint lower (s : string) : string :=
  match s with
  | "" => ""
  | String a t =>
      String (if is_upper a then ascii_of_nat (nat_of_ascii a + 32) else a)
             (lower t)
  end.

Fixpoint forallb_str (p : ascii -> bool) (s : string) : bool :=
  match s with
  | "" => true
  | String a t => p a && forallb_str p t
  end.

End PyStr.
Import PyStr.

(** [l[-1]] and [l[0]] on the lists of strings returned by [split]. *)
Definition last_str (l : list string) : string := List.last l "".
Definition first_str (l : list string) : string := List.hd "" l.

(** ** urllib.parse *)

Module Urllib.

Definition uses_params : list string :=
  [""; "ftp"; "hdl"; "prospero"; "http"; "imap"; "https"; "shttp"; "rtsp";
   "rtspu"; "sip"; "sips"; "mms"; "sftp"; "tel"].

Definition is_scheme_char (a : ascii) : bool :=
  is_lower a || is_upper a || is_digit a ||
  Ascii.eqb a "+" || Ascii.eqb a "-" || Ascii.eqb a ".".

(** The characters of [_WHATWG_C0_CONTROL_OR_SPACE]: code points 0 to 32. *)
Fixpoint lstrip_c0 (s : string) : string :=
  match s with
  | "" => ""
  | String a t => if Nat.leb (nat_of_ascii a) 32 then lstrip_c0 t else s
  end.

Definition TAB : ascii := ascii_of_nat 9.
Definition LF : ascii := ascii_of_nat 10.
Definition CR : ascii := ascii_of_nat 13.

(** [for b in _UNSAFE_URL_BYTES_TO_REMOVE: url = url.replace(b, "")]. *)
Definition remove_unsafe (s : string) : string :=
  remove_char LF (remove_char CR (remove_char TAB s)).

Record ParseResult : Type := {
  scheme : string;
  netloc : string;
  path : string;
  params : string;
  query : string;
  fragment : string
}.

(** [_splitnetloc(url, start)]. *)
Definition _splitnetloc (url : string) (start : nat) : string * string :=
  let delim :=
    fold_left
      (fun delim c =>
         match find_from c start url with
         | Some wdelim => Nat.min delim wdelim
         | None => delim
         end)
      ["/"%char; "?"%char; "#"%char] (String.length url) in
  (take (delim - start) (drop start url), drop delim url).

(** [_splitparams(url)]. *)
Definition _splitparams (url : string) : string * string :=
  if mem_char "/" url then
    match rfind "/" url with
    | Some j =>
        match find_from ";" j url with
        | Some i => (take i url, drop (i + 1) url)
        | None => (url, "")
        end
    | None => (url, "")
    end
  else
    match find ";" url with
    | Some i => (take i url, drop (i + 1) url)
    | None => (take (String.length url - 1) url, url)
    end.

Section Parse.

(** [urllib.parse.unquote]: percent-decoding followed by UTF-8 decoding
    with replacement of invalid sequences. *)
Variable unquote : string -> string.
(** [_check_bracketed_netloc] (patch-level dependent): [true] when a netloc
    holding both brackets is accepted, [false] when it raises ValueError. *)
Variable bracketed_netloc_ok : string -> bool.
(** The NFKC part of [_checknetloc], reached by non-ASCII netlocs only:
    [false] when it raises ValueError. *)
Variable nfkc_netloc_ok : string -> bool.

Definition _checknetloc (nl : string) : result unit :=
  if String.eqb nl "" || isascii nl then Ok tt
  else if nfkc_netloc_ok nl then Ok tt else Raise ValueError.

(** The scheme step of [urlsplit]: the scheme found (lower-cased) and the
    rest of the URL. *)
Definition split_scheme (url : string) : string * string :=
  match find ":" url with
  | Some (S i') =>
      let i := S i' in
      if match url with String a _ => is_ascii_alpha a | "" => false end
      then if forallb_str is_scheme_char (take i url)
           then (lower (take i url), drop (i + 1) url)
           else ("", url)
      else ("", url)
  | _ => ("", url)
  end.

(** The netloc step of [urlsplit]. *)
Definition split_netloc (url : string) : result (string * string) :=
  if String.eqb (take 2 url) "//" then
    let '(nl, rest) := _splitnetloc url 2 in
    if (mem_char "[" nl && negb (mem_char "]" nl)) ||
       (mem_char "]" nl && negb (mem_char "[" nl))
    then Raise ValueError
    else if mem_char "[" nl && mem_char "]" nl
         then if bracketed_netloc_ok nl then Ok (nl, rest)
              else Raise ValueError
         else Ok (nl, rest)
  else Ok ("", url).

(** [urlsplit(url)] on a [str]; the result record has no params yet. *)
Definition urlsplit (url0 : string) : result ParseResult :=
  let url := remove_unsafe (lstrip_c0 url0) in
  let '(sch, url) := split_scheme url in
  let? (nl, url) := split_netloc url in
  let '(url, frag) :=
    match split_once "#" url with
    | Some (u, f) => (u, f)
    | None => (url, "")
    end in
  let '(url, q) :=
    match split_once "?" url with
    | Some (u, q) => (u, q)
    | None => (url, "")
    end in
  let? _ := _checknetloc nl in
  Ok {| scheme := sch; netloc := nl; path := url; params := "";
        query := q; fragment := frag |}.

(** [urlparse(url)] on a [str]. *)
Definition urlparse (url : string) : result ParseResult :=
  let? r := urlsplit url in
  if existsb (String.eqb (scheme r)) uses_params && mem_char ";" (path r)
  then let '(u, p) := _splitparams (path r) in
       Ok {| scheme := scheme r; netloc := netloc r; path := u; params := p;
             query := query r; fragment := fragment r |}
  else Ok r.

(** [parse_qsl(qs)] with its default arguments. *)
Definition parse_qsl (qs : string) : list (string * string) :=
  let query_args := if String.eqb qs "" then [] else split "&" qs in
  flat_map
    (fun name_value =>
       if String.eqb name_value "" then []
       else match split_once "=" name_value with
            | None => []
            | Some (n, v) =>
                if String.eqb v "" then []
                else [(unquote (replace_char "+" " " n),
                       unquote (replace_char "+" " " v))]
            end)
    query_args.

(** One step of the loop of [parse_qs]: append to the list of an existing
    name, or add the name at the end of the dict. *)
Fixpoint dict_append (name v : string) (d : list (string * list string))
  : list (string * list string) :=
  match d with
  | [] => [(name, [v])]
  | (k, vs) :: rest =>
      if String.eqb k name then (k, vs ++ [v]) :: rest
      else (k, vs) :: dict_append name v rest
  end.

Definition parse_qs (qs : string) : list (string * list string) :=
  fold_left (fun d '(n, v) => dict_append n v d) (parse_qsl qs) [].

Fixpoint qs_get (k : string) (d : list (string * list string))
  : option (list string) :=
  match d with
  | [] => None
  | (k', vs) :: rest => if String.eqb k k' then Some vs else qs_get k rest
  end.

End Parse.
End Urllib.
Import Urllib.

(** ** Python built-ins on decoded JSON values *)

Module Py.

(** Continuation bytes of a UTF-8 sequence: 0x80 to 0xBF. *)
Definition is_continuation (a : ascii) : bool :=
  Nat.leb 128 (nat_of_ascii a) && Nat.leb (nat_of_ascii a) 191.

(** The characters of a [str], what iterating over it yields: read from
    the right, a byte joins the group after it when that group starts with
    a continuation byte. *)
Definition chars (s : string) : list string :=
  fold_right
    (fun a acc =>
       match acc with
       | h :: r =>
           match h with
           | String b _ => if is_continuation b then String a h :: r
                           else String a "" :: acc
           | "" => String a "" :: acc
           end
       | [] => [String a ""]
       end)
    [] (list_ascii_of_string s).

(** [k in v] for a [str] [k]. *)
Definition py_in (k : string) (v : value) : result bool :=
  match v with
  | PDict kv => Ok (match dict_get k kv with Some _ => true | None => false end)
  | PList l =>
      Ok (existsb (fun x => match x with PStr s => String.eqb s k | _ => false end) l)
  | PStr s => Ok (contains k s)
  | _ => Raise TypeError
  end.

(** [v[k]] for a [str] [k]. *)
Definition getitem_str (v : value) (k : string) : result value :=
  match v with
  | PDict kv =>
      match dict_get k kv with
      | Some x => Ok x
      | None => Raise KeyError
      end
  | _ => Raise TypeError
  end.

(** [v[0]]. *)
Definition getitem_0 (v : value) : result value :=
  match v with
  | PList (x :: _) => Ok x
  | PList [] => Raise IndexError
  | PStr s =>
      match chars s with
      | c :: _ => Ok (PStr c)
      | [] => Raise IndexError
      end
  | PDict _ => Raise KeyError
  | _ => Raise TypeError
  end.

(** [v.get(k, default)]: only a dict has [get]. *)
Definition get_default (v : value) (k : string) (default : value)
  : result value :=
  match v with
  | PDict kv =>
      Ok (match dict_get k kv with Some x => x | None => default end)
  | _ => Raise AttributeError
  end.

(** What [list.extend(v)] appends. *)
Definition py_iter (v : value) : result (list value) :=
  match v with
  | PList l => Ok l
  | PStr s => Ok (map PStr (chars s))
  | PDict kv => Ok (map (fun p => PStr (fst p)) kv)
  | _ => Raise TypeError
  end.

(** Whitespace that [int] strips from an ASCII [str]: tab, LF, VT, FF, CR
    and the space. *)
Definition is_space (a : ascii) : bool :=
  let n := nat_of_ascii a in
  (Nat.leb 9 n && Nat.leb n 13) || Nat.eqb n 32.

Fixpoint lstrip_space (s : string) : string :=
  match s with
  | "" => ""
  | String a t => if is_space a then lstrip_space t else s
  end.

Fixpoint rstrip_space (s : string) : string :=
  match s with
  | "" => ""
  | String a t =>
      match rstrip_space t with
      | "" => if is_space a then "" else String a ""
      | t' => String a t'
      end
  end.

Definition digit_val (a : ascii) : Z := Z.of_nat (nat_of_ascii a - 48).

(** Decimal digits with single underscores between digits: the value and
    the number of digits. *)
Fixpoint digits_aux (s : string) (acc : Z) (n : nat) (prev_digit : bool)
  : option (Z * nat) :=
  match s with
  | "" => if prev_digit then Some (acc, n) else None
  | String a t =>
      if is_digit a then digits_aux t (10 * acc + digit_val a)%Z (S n) true
      else if Ascii.eqb a "_" && prev_digit then digits_aux t acc n false
      else None
  end.

(** CPython 3.11 refuses decimal literals of more than 4300 digits. *)
Definition max_str_digits : nat := 4300.

(** [int(s)] for an ASCII [str]: what [PyLong_FromString] accepts in base
    10. *)
Definition int_of_str (s : string) : result Z :=
  let body := rstrip_space (lstrip_space s) in
  let '(neg, ds) :=
    match body with
    | String a t =>
        if Ascii.eqb a "-" then (true, t)
        else if Ascii.eqb a "+" then (false, t)
        else (false, body)
    | "" => (false, body)
    end in
  match digits_aux ds 0%Z 0 false with
  | Some (z, n) =>
      if Nat.ltb max_str_digits n then Raise ValueError
      else Ok (if neg then (- z)%Z else z)
  | None => Raise ValueError
  end.

(** [int(f)] for a float: the integer part, towards zero. *)
Definition int_of_float (f : pyfloat) : result Z :=
  match f with
  | FFinite m e =>
      Ok (if Z.leb 0 e then (m * 2 ^ e)%Z else Z.quot m (2 ^ (- e)))
  | FInf _ => Raise OverflowError
  | FNaN => Raise ValueError
  end.

Section Int.

(** [_PyUnicode_TransformDecimalAndSpaceToASCII] on a non-ASCII [str]: the
    Unicode decimal digits become ASCII digits and the Unicode spaces
    become spaces, by the tables of the interpreter. *)
Variable to_ascii_digits : string -> string.

(** [int(v)]. *)
Definition py_int (v : value) : result Z :=
  match v with
  | PInt z => Ok z
  | PBool b => Ok (if b then 1%Z else 0%Z)
  | PFloat f => int_of_float f
  | PStr s => int_of_str (if isascii s then s else to_ascii_digits s)
  | _ => Raise TypeError
  end.

End Int.

End Py.
Import Py.

(** ** The network and the monad of the script *)

(** What the script does to the outside world. *)
Inductive event : Type :=
| EvGet (url : string) (headers : list (string * string))
        (params : list (string * value))
| EvPatch (url : string) (headers : list (string * string))
          (json_body : value)
| EvSleep (millis : Z).

Definition trace : Type := list event.

Record response : Type := {
  status_code : Z;
  (** [response.json()]: the decoded body, or the exception it raises. *)
  json : result value
}.

(** A computation reads and extends the trace, and returns or raises. *)
Definition M (A : Type) : Type := trace -> result A * trace.

Definition ret {A} (a : A) : M A := fun tr => (Ok a, tr).

Definition bind {A B} (m : M A) (k : A -> M B) : M B :=
  fun tr =>
    match m tr with
    | (Ok a, tr') => k a tr'
    | (Raise e, tr') => (Raise e, tr')
    end.

Definition lift {A} (r : result A) : M A := fun tr => (r, tr).

Declare Scope m_scope.
Delimit Scope m_scope with M.
Notation "x <- m ;; k" := (bind m (fun x => k))
  (at level 61, m at next level, right associativity) : m_scope.
Notation "m ;; k" := (bind m (fun _ => k))
  (at level 61, right associativity) : m_scope.

(** ** Stand-ins for the library parameters and the network, for the
    examples at the end of the file *)

Module Example.

(** [unquote] on a string without a percent sign returns the string. *)
Definition plain_unquote (s : string) : string := s.

(** A stand-in for the digit tables of [int], for ASCII counters. *)
Definition no_unicode_digits (s : string) : string := s.

(** A netloc check that accepts every netloc. *)
Definition any_netloc (nl : string) : bool := true.

(** A network that answers every request with the same status and body. *)
Definition respond (status : Z) (body : value) : trace -> result response :=
  fun _ => Ok {| status_code := status; json := Ok body |}.

Definition entry : value :=
  PDict [("id", PStr "rec1");
         ("fields", PDict [("Views", PInt 10); ("Likes", PInt 2);
                           ("Comments", PInt 1)])].

(** A record whose URL has an opening bracket and no closing one. *)
Definition bracket_record : value :=
  PDict [("id", PStr "rec1");
         ("fields", PDict [("Asset Link", PStr "http://[")])].

(** A record whose short link has an empty path. *)
Definition empty_id_record : value :=
  PDict [("id", PStr "rec2");
         ("fields", PDict [("Asset Link", PStr "https://youtu.be/")])].

(** A statistics body whose view counter is not a number. *)
Definition malformed_stats : value :=
  PDict [("items",
          PList [PDict [("statistics",
                         PDict [("viewCount", PStr "12a");
                                ("likeCount", PStr "3")])]])].

(** A statistics body with no comment counter. *)
Definition partial_stats : value :=
  PDict [("items",
          PList [PDict [("statistics",
                         PDict [("viewCount", PStr "10");
                                ("likeCount", PStr "2")])]])].

(** A record with a short link. *)
Definition link_record : value :=
  PDict [("id", PStr "rec3");
         ("fields", PDict [("Asset Link", PStr "https://youtu.be/abc")])].

(** A record whose URL field holds a list of attachments. *)
Definition attachment_record : value :=
  PDict [("id", PStr "rec4");
         ("fields",
          PDict [("Asset Link",
                  PList [PDict [("url", PStr "https://youtu.be/abc")]])])].

(** A body that serves as a page of the table ([records], no cursor) and as
    an answer of the statistics endpoint ([items]). *)
Definition table_and_stats (records : list value) : value :=
  PDict [("records", PList records);
         ("items",
          PList [PDict [("statistics",
                         PDict [("viewCount", PStr "10");
                                ("likeCount", PStr "2")])]])].

(** A server with two pages: the first request gets one record and the
    cursor ["itr1"], every later one gets one record and no cursor. *)
Definition two_pages : trace -> result response :=
  fun tr =>
    match tr with
    | [_] =>
        Ok {| status_code := 200;
              json := Ok (PDict [("records", PList [link_record]);
                                 ("offset", PStr "itr1")]) |}
    | _ =>
        Ok {| status_code := 200;
              json := Ok (PDict [("records", PList [empty_id_record])]) |}
    end.

(** A network whose [n]-th action raises. *)
Definition fail_at (n : nat) : trace -> result response :=
  fun tr =>
    if Nat.eqb (List.length tr) n then Raise ConnectionError
    else Ok {| status_code := 200; json := Ok (PDict []) |}.

End Example.

Local Open Scope m_scope.

Section Script.

(** The library parameters of [urllib.parse]. *)
Variable unquote : string -> string.
Variable bracketed_netloc_ok : string -> bool.
Variable nfkc_netloc_ok : string -> bool.

(** The library parameter of [int]. *)
Variable to_ascii_digits : string -> string.

(** The environment variables read at import time. *)
Variable AIRTABLE_API_KEY : string.
Variable AIRTABLE_BASE_ID : string.
Variable AIRTABLE_TABLE_NAME : string.
Variable AIRTABLE_VIEW_NAME : string.
Variable YOUTUBE_API_KEY : string.

(** The outside world: what a request returns, or the transport exception
    it raises, given everything the script has done up to and including
    that request. *)
Variable network : trace -> result response.

Definition requests_get (url : string) (headers : list (string * string))
  (params : list (string * value)) : M response :=
  fun tr => let tr' := tr ++ [EvGet url headers params] in (network tr', tr').

Definition requests_patch (url : string) (headers : list (string * string))
  (json_body : value) : M response :=
  fun tr => let tr' := tr ++ [EvPatch url headers json_body] in (network tr', tr').

(** [time.sleep(0.25)], the pause in milliseconds. *)
Definition time_sleep (millis : Z) : M unit :=
  fun tr => (Ok tt, tr ++ [EvSleep millis]).

(** *** extract_video_id *)

(** [extract_video_id(url)] once [url] is known to be a non-empty [str]. *)
Definition extract_from_str (url : string) : result (option string) :=
  let? parsed_url := urlparse bracketed_netloc_ok nfkc_netloc_ok url in
  if contains "youtu.be" (netloc parsed_url) then
    Ok (Some (strip "/" (path parsed_url)))
  else if contains "youtube.com" (netloc parsed_url)
          && startswith "/live/" (path parsed_url) then
    Ok (Some (first_str (split "/" (last_str (split "/live/" (path parsed_url))))))
  else if contains "youtube.com" (netloc parsed_url) then
    let query := parse_qs unquote (query parsed_url) in
    match qs_get "v" query with
    | Some (v :: _) => Ok (Some v)
    | Some [] => Raise IndexError
    | None => Ok None
    end
  else Ok None.

(** [extract_video_id(url)].  A truthy argument that is not a [str] reaches
    [urlparse], whose [_coerce_args] calls [url.decode]: AttributeError. *)
Definition extract_video_id (url : value) : result (option string) :=
  if negb (truthy url) then Ok None
  else match url with
       | PStr s => extract_from_str s
       | _ => Raise AttributeError
       end.

(** *** get_youtube_stats *)

Definition stats_url (video_id : string) : string :=
  "https://www.googleapis.com/youtube/v3/videos?part=statistics&id="
    ++ video_id ++ "&key=" ++ YOUTUBE_API_KEY.

(** Lines 40-48: what [get_youtube_stats] returns from the decoded body. *)
Definition stats_of_data (data : value) : result value :=
  let? has_items := py_in "items" data in
  let? items_truthy :=
    (if has_items then let? items := getitem_str data "items" in Ok (truthy items)
     else Ok false) in
  if items_truthy then
    let? items := getitem_str data "items" in
    let? item := getitem_0 items in
    let? stats := getitem_str item "statistics" in
    let? v := get_default stats "viewCount" (PInt 0) in
    let? views := py_int to_ascii_digits v in
    let? l := get_default stats "likeCount" (PInt 0) in
    let? likes := py_int to_ascii_digits l in
    let? c := get_default stats "commentCount" (PInt 0) in
    let? comments := py_int to_ascii_digits c in
    Ok (PDict [("views", PInt views); ("likes", PInt likes);
               ("comments", PInt comments)])
  else Ok PNone.

Definition get_youtube_stats (video_id : string) : M value :=
  response <- requests_get (stats_url video_id) [] [] ;;
  if negb (Z.eqb (status_code response) 200) then ret PNone
  else lift (let? data := json response in stats_of_data data).

(** *** get_airtable_records *)

Definition airtable_url : string :=
  "https://api.airtable.com/v0/" ++ AIRTABLE_BASE_ID ++ "/" ++ AIRTABLE_TABLE_NAME.

Definition fetch_params (offset : value) : list (string * value) :=
  [("pageSize", PInt 100); ("view", PStr AIRTABLE_VIEW_NAME)]
    ++ (if truthy offset then [("offset", offset)] else []).

(** Lines 67-71 on one decoded page: the records the page adds and the
    next value of [offset]. *)
Definition read_page (data : value) : result (list value * value) :=
  let? batch := get_default data "records" (PList []) in
  let? added := py_iter batch in
  let? offset := get_default data "offset" PNone in
  Ok (added, offset).

(** The [while True] loop; [None] when [fuel] pages were fetched and the
    loop is still running. *)
Fixpoint fetch_loop (fuel : nat) (offset : value) (all_records : list value)
  : M (option (list value)) :=
  match fuel with
  | O => ret None
  | S fuel' =>
      response <- requests_get airtable_url
                    [("Authorization", ("Bearer " ++ AIRTABLE_API_KEY)%string)]
                    (fetch_params offset) ;;
      page <- lift (let? data := json response in read_page data) ;;
      let '(added, offset') := page in
      if negb (truthy offset') then ret (Some (all_records ++ added))
      else fetch_loop fuel' offset' (all_records ++ added)
  end.

Definition get_airtable_records (fuel : nat) : M (option (list value)) :=
  fetch_loop fuel PNone [].

(** *** batch_update_airtable *)

(** [range(start, stop, step)] for a positive [step]. *)
Fixpoint range_from (fuel start stop step : nat) : list nat :=
  match fuel with
  | O => []
  | S fuel' =>
      if Nat.ltb start stop then start :: range_from fuel' (start + step) stop step
      else []
  end.

Definition py_range (start stop step : nat) : list nat :=
  range_from stop start stop step.

(** [l[i:j]]. *)
Definition slice {A} (l : list A) (i j : nat) : list A :=
  firstn (j - i) (skipn i l).

Definition patch_headers : list (string * string) :=
  [("Authorization", ("Bearer " ++ AIRTABLE_API_KEY)%string);
   ("Content-Type", "application/json")].

Fixpoint for_each {A} (l : list A) (body : A -> M unit) : M unit :=
  match l with
  | [] => ret tt
  | x :: rest => body x ;; for_each rest body
  end.

Definition batch_update_airtable (records_to_update : list value) : M unit :=
  for_each (py_range 0 (List.length records_to_update) 10)
    (fun i =>
       let batch := PDict [("records", PList (slice records_to_update i (i + 10)))] in
       requests_patch airtable_url patch_headers batch ;;
       time_sleep 250).

(** *** main *)

(** Lines 100-101: [record.get("fields", {}).get("Asset Link")]. *)
Definition asset_link (record : value) : result value :=
  let? fields := get_default record "fields" (PDict []) in
  get_default fields "Asset Link" PNone.

(** Lines 114-121: the dict appended to [updates]. *)
Definition update_entry (record : value) (stats : value) : result value :=
  let? id := getitem_str record "id" in
  let? v := getitem_str stats "views" in
  let? l := getitem_str stats "likes" in
  let? c := getitem_str stats "comments" in
  Ok (PDict [("id", id);
             ("fields", PDict [("Views", v); ("Likes", l); ("Comments", c)])]).

(** The body of the [for record in records] loop: the update list after
    this record. *)
Definition main_step (record : value) (updates : list value)
  : M (list value) :=
  url <- lift (asset_link record) ;;
  if negb (truthy url) then ret updates
  else
    video_id <- lift (extract_video_id url) ;;
    match video_id with
    | None => ret updates
    | Some vid =>
        if String.eqb vid "" then ret updates
        else
          stats <- get_youtube_stats vid ;;
          if negb (truthy stats) then ret updates
          else
            entry <- lift (update_entry record stats) ;;
            ret (updates ++ [entry])
    end.

Fixpoint main_loop (records : list value) (updates : list value)
  : M (list value) :=
  match records with
  | [] => ret updates
  | record :: rest =>
      updates' <- main_step record updates ;;
      main_loop rest updates'
  end.

(** [main()]; the [print] calls write to standard output only and are left
    out.  [None] when the fetch loop ran out of [fuel]. *)
Definition main (fuel : nat) : M (option unit) :=
  fetched <- get_airtable_records fuel ;;
  match fetched with
  | None => ret None
  | Some records =>
      updates <- main_loop records [] ;;
      match updates with
      | [] => ret (Some tt)
      | _ => batch_update_airtable updates ;; ret (Some tt)
      end
  end.


(** ** Vocabulary of the properties *)

(** The groups the writer sends: [l[0:10]], [l[10:20]], ... *)
Fixpoint chunks_aux {A} (fuel : nat) (l : list A) : list (list A) :=
  match fuel with
  | O => []
  | S fuel' =>
      match l with
      | [] => []
      | _ => firstn 10 l :: chunks_aux fuel' (skipn 10 l)
      end
  end.

Definition chunks {A} (l : list A) : list (list A) :=
  chunks_aux (List.length l) l.

Definition patch_events (group : list value) : trace :=
  [EvPatch airtable_url patch_headers (PDict [("records", PList group)]);
   EvSleep 250].

Definition is_patch (e : event) : bool :=
  match e with EvPatch _ _ _ => true | _ => false end.

Definition is_sleep (e : event) : bool :=
  match e with EvSleep _ => true | _ => false end.

Definition count_patches (tr : trace) : nat := List.length (filter is_patch tr).
Definition count_sleeps (tr : trace) : nat := List.length (filter is_sleep tr).

(** A counter of the response: the integer value of the field, 0 when the
    field is absent. *)
Definition counter_or_zero (st : list (string * value)) (k : string)
  : result Z :=
  match dict_get k st with
  | None => Ok 0%Z
  | Some v => py_int to_ascii_digits v
  end.

Definition stats_dict (views likes comments : Z) : value :=
  PDict [("views", PInt views); ("likes", PInt likes);
         ("comments", PInt comments)].

Definition fetch_event (offset : value) : event :=
  EvGet airtable_url [("Authorization", ("Bearer " ++ AIRTABLE_API_KEY)%string)]
        (fetch_params offset).

(** The characters that [urlsplit] drops or that end the path of a URL. *)
Definition ends_path (a : ascii) : bool :=
  Ascii.eqb a "?" || Ascii.eqb a "#" || Ascii.eqb a ";"
  || Ascii.eqb a TAB || Ascii.eqb a CR || Ascii.eqb a LF.

(** A path with no query, fragment or parameter mark. *)
Definition plain_path (p : string) : bool :=
  forallb_str (fun a => negb (ends_path a)) p.

(** An identifier as it stands in a URL: one segment of a plain path. *)
Definition plain_id (id : string) : bool :=
  plain_path id && negb (mem_char "/" id).

(** A host name: ASCII, with no bracket and no character that ends the
    netloc. *)
Definition plain_host (h : string) : bool :=
  plain_path h && isascii h
  && negb (mem_char "/" h) && negb (mem_char "[" h) && negb (mem_char "]" h).

(** The path segment that immediately follows the leading ["/live/"] of a
    path, up to the next slash. *)
Definition segment_after_live (p : string) : string :=
  first_str (split "/" (drop 6 p)).

(** The update entry of a record: its id and the three counters. *)
Definition entry_of (id : value) (views likes comments : Z) : value :=
  PDict [("id", id);
         ("fields", PDict [("Views", PInt views); ("Likes", PInt likes);
                           ("Comments", PInt comments)])].

(** [s] ends with the character [c]. *)
Fixpoint ends_with (c : ascii) (s : string) : bool :=
  match s with
  | "" => false
  | String a "" => Ascii.eqb a c
  | String _ t => ends_with c t
  end.

(** [s] is made of the character [c] only. *)
Definition all_char (c : ascii) (s : string) : bool :=
  forallb_str (fun a => Ascii.eqb a c) s.

(** An ASCII letter or digit. *)
Definition is_alnum (a : ascii) : bool := is_lower a || is_upper a || is_digit a.

(** The values of the parameters called [k] among decoded pairs, in
    order. *)
Definition values_named (k : string) (pairs : list (string * string))
  : list string :=
  map snd (filter (fun nv => String.eqb (fst nv) k) pairs).

(** A value of a query parameter as it stands in a URL: not empty, ending
    at the next ["&"], with no fragment mark, no percent escape and no
    character that [urlsplit] drops. *)
Definition plain_value (v : string) : bool :=
  negb (String.eqb v "")
  && forallb_str
       (fun a => negb (Ascii.eqb a "&" || Ascii.eqb a "#" || Ascii.eqb a "%"
                       || Ascii.eqb a TAB || Ascii.eqb a CR || Ascii.eqb a LF))
       v.

(** The rest of a query: no fragment mark and no character that [urlsplit]
    drops. *)
Definition plain_query (q : string) : bool :=
  forallb_str
    (fun a => negb (Ascii.eqb a "#" || Ascii.eqb a TAB || Ascii.eqb a CR
                    || Ascii.eqb a LF))
    q.

(** The PATCH that carries one group. *)
Definition patch_request (group : list value) : event :=
  EvPatch airtable_url patch_headers (PDict [("records", PList group)]).

(** The server answers the request for [offset] made after [tr] with the
    first of [pages] (its records and a truthy cursor), then the next
    request with the next page, and the request after the last cursor with
    the records [final] and no cursor or a falsy one. *)
Fixpoint pages_served (tr : trace) (offset : value)
  (pages : list (list value * value)) (final : list value) : Prop :=
  match pages with
  | [] =>
      exists resp kv,
        network (tr ++ [fetch_event offset]) = Ok resp
        /\ json resp = Ok (PDict kv)
        /\ dict_get "records" kv = Some (PList final)
        /\ match dict_get "offset" kv with
           | None => True
           | Some c => truthy c = false
           end
  | (recs, cursor) :: rest =>
      exists resp kv,
        network (tr ++ [fetch_event offset]) = Ok resp
        /\ json resp = Ok (PDict kv)
        /\ dict_get "records" kv = Some (PList recs)
        /\ dict_get "offset" kv = Some cursor
        /\ truthy cursor = true
        /\ pages_served (tr ++ [fetch_event offset]) cursor rest final
  end.

(** The requests of a fetch that starts at [offset] and follows the
    cursors of [pages]. *)
Fixpoint fetch_events (offset : value) (pages : list (list value * value))
  : trace :=
  match pages with
  | [] => [fetch_event offset]
  | (_, cursor) :: rest => fetch_event offset :: fetch_events cursor rest
  end.

(** A GET of the statistics endpoint. *)
Definition is_lookup (e : event) : Prop :=
  exists video_id, e = EvGet (stats_url video_id) [] [].

(** The decimal value of a string of ASCII digits. *)
Fixpoint decimal_from (acc : Z) (s : string) : Z :=
  match s with
  | "" => acc
  | String a t => decimal_from (10 * acc + digit_val a)%Z t
  end.

Definition decimal_value (s : string) : Z := decimal_from 0%Z s.

(** A string of one to 4300 ASCII digits. *)
Definition digit_string (s : string) : bool :=
  negb (String.eqb s "") && forallb_str is_digit s
  && Nat.leb (String.length s) max_str_digits.

(** A string of whitespace only (the empty string too). *)
Definition blank (s : string) : bool := forallb_str is_space s.

(** A character that stands in no integer literal: not a digit, a sign, an
    underscore or whitespace. *)
Definition foreign_char (a : ascii) : bool :=
  negb (is_digit a || Ascii.eqb a "+" || Ascii.eqb a "-" || Ascii.eqb a "_"
        || is_space a).

Fixpoint has_foreign_char (s : string) : bool :=
  match s with
  | "" => false
  | String a t => foreign_char a || has_foreign_char t
  end.

(** ** Properties *)

(** *** The monad *)

Lemma bind_raise {A B} (m : M A) (k : A -> M B) tr e tr' :
  m tr = (Raise e, tr') -> bind m k tr = (Raise e, tr').
Proof. intros H. unfold bind. rewrite H. reflexivity. Qed.

(** *** batch_update_airtable *)

Lemma range_slices {A} (l : list A) fuel start :
  map (fun i => slice l i (i + 10)) (range_from fuel start (List.length l) 10)
  = chunks_aux fuel (skipn start l).
Proof.
  revert start. induction fuel as [|fuel IH]; intros start; [reflexivity|].
  cbn [range_from chunks_aux].
  destruct (Nat.ltb start (List.length l)) eqn:E.
  - apply Nat.ltb_lt in E.
    destruct (skipn start l) as [|x r] eqn:Es.
    + apply (f_equal (@List.length A)) in Es. rewrite length_skipn in Es.
      cbn in Es. lia.
    + cbn [map]. rewrite IH. unfold slice.
      replace (start + 10 - start) with 10 by lia.
      rewrite Es. f_equal.
      replace (start + 10) with (10 + start) by lia.
      rewrite <- skipn_skipn. rewrite Es. reflexivity.
  - apply Nat.ltb_ge in E. rewrite skipn_all2 by lia. reflexivity.
Qed.

Lemma chunks_aux_concat {A} fuel (l : list A) :
  List.length l <= fuel -> concat (chunks_aux fuel l) = l.
Proof.
  revert l. induction fuel as [|fuel IH]; intros l H.
  - destruct l; [reflexivity | cbn in H; lia].
  - destruct l as [|x r]; [reflexivity|].
    cbn [chunks_aux concat]. rewrite IH.
    + apply firstn_skipn.
    + rewrite length_skipn. cbn [List.length] in *. lia.
Qed.

Lemma chunks_aux_sizes {A} fuel (l : list A) :
  Forall (fun g => 1 <= List.length g <= 10) (chunks_aux fuel l).
Proof.
  revert l. induction fuel as [|fuel IH]; intros l; [constructor|].
  destruct l as [|x r]; [constructor|].
  cbn [chunks_aux]. constructor; [|apply IH].
  rewrite length_firstn. cbn [List.length]. lia.
Qed.

(** Every group but the last is full. *)
Lemma chunks_aux_full {A} fuel (l : list A) i :
  List.length l <= fuel ->
  S i < List.length (chunks_aux fuel l) ->
  List.length (nth i (chunks_aux fuel l) []) = 10.
Proof.
  revert l i. induction fuel as [|fuel IH]; intros l i Hf Hi.
  - cbn in Hi. lia.
  - destruct l as [|x r]; [cbn in Hi; lia|].
    cbn [chunks_aux] in *. cbn [List.length] in Hi.
    assert (Hs : List.length (skipn 10 (x :: r)) <= fuel).
    { rewrite length_skipn. cbn [List.length] in *. lia. }
    destruct i as [|i].
    + cbn [nth]. rewrite length_firstn.
      destruct (chunks_aux fuel (skipn 10 (x :: r))) as [|g gs] eqn:Eg;
        [cbn in Hi; lia|].
      destruct fuel as [|fuel']; [discriminate|].
      destruct (skipn 10 (x :: r)) as [|y s] eqn:Es; [discriminate|].
      apply (f_equal (@List.length A)) in Es. rewrite length_skipn in Es.
      cbn [List.length] in *. lia.
    + cbn [nth]. apply IH; [exact Hs | lia].
Qed.

Lemma chunks_aux_count {A} fuel (l : list A) :
  List.length l <= fuel ->
  List.length (chunks_aux fuel l) = (List.length l + 9) / 10.
Proof.
  revert l. induction fuel as [|fuel IH]; intros l H.
  - destruct l; [reflexivity | cbn in H; lia].
  - destruct l as [|x r]; [reflexivity|].
    cbn [chunks_aux List.length]. rewrite IH.
    + rewrite length_skipn. cbn [List.length].
      destruct (Nat.le_gt_cases (S (List.length r)) 10) as [Hle|Hgt].
      * replace (S (List.length r) - 10) with 0 by lia.
        change ((0 + 9) / 10) with 0.
        apply Nat.div_unique with (r := List.length r); lia.
      * replace (S (List.length r) + 9) with
          ((S (List.length r) - 10 + 9) + 1 * 10) by lia.
        rewrite Nat.div_add by lia. lia.
    + rewrite length_skipn. cbn [List.length] in *. lia.
Qed.

(** When no request raises, the loop issues, for each index of the range
    in order, one PATCH and one pause. *)
Lemma for_each_patches (l : list value) (idx : list nat) tr :
  (forall t, exists r, network t = Ok r) ->
  for_each idx
    (fun i =>
       requests_patch airtable_url patch_headers
         (PDict [("records", PList (slice l i (i + 10)))]) ;;
       time_sleep 250) tr
  = (Ok tt,
     tr ++ flat_map patch_events (map (fun i => slice l i (i + 10)) idx)).
Proof.
  intros Hnet. revert tr. induction idx as [|i idx IH]; intros tr.
  - cbn. rewrite app_nil_r. reflexivity.
  - cbn [for_each map flat_map].
    unfold bind at 1. unfold bind at 1. unfold requests_patch at 1.
    destruct (Hnet (tr ++ [EvPatch airtable_url patch_headers
                 (PDict [("records", PList (slice l i (i + 10)))])])) as [r Hr].
    rewrite Hr. unfold time_sleep at 1. rewrite IH.
    unfold patch_events at 2. rewrite <- !app_assoc. reflexivity.
Qed.

Lemma batch_update_trace (l : list value) tr :
  (forall t, exists r, network t = Ok r) ->
  batch_update_airtable l tr = (Ok tt, tr ++ flat_map patch_events (chunks l)).
Proof.
  intros Hnet. unfold batch_update_airtable, py_range.
  rewrite for_each_patches by exact Hnet.
  rewrite range_slices. reflexivity.
Qed.

Lemma count_patches_events groups :
  count_patches (flat_map patch_events groups) = List.length groups.
Proof.
  induction groups as [|g gs IH]; [reflexivity|].
  unfold count_patches in *. cbn. f_equal. exact IH.
Qed.

Lemma count_sleeps_events groups :
  count_sleeps (flat_map patch_events groups) = List.length groups.
Proof.
  induction groups as [|g gs IH]; [reflexivity|].
  unfold count_sleeps in *. cbn. f_equal. exact IH.
Qed.

Lemma last_events groups d :
  groups <> [] -> List.last (flat_map patch_events groups) d = EvSleep 250.
Proof.
  induction groups as [|g gs IH]; intros H; [congruence|].
  destruct gs as [|g' gs']; [reflexivity|].
  change (flat_map patch_events (g :: g' :: gs'))
    with (patch_events g ++ flat_map patch_events (g' :: gs')).
  unfold patch_events at 1. cbn [app].
  assert (Hn : flat_map patch_events (g' :: gs') <> []) by (cbn; discriminate).
  destruct (flat_map patch_events (g' :: gs')) as [|e es] eqn:E; [congruence|].
  cbn [List.last]. rewrite <- (IH ltac:(discriminate)). reflexivity.
Qed.

Lemma pause_follows_patch groups i url h b :
  nth_error (flat_map patch_events groups) i = Some (EvPatch url h b) ->
  nth_error (flat_map patch_events groups) (S i) = Some (EvSleep 250).
Proof.
  revert i. induction groups as [|g gs IH]; intros i H.
  - destruct i; discriminate.
  - cbn [flat_map patch_events app] in *.
    destruct i as [|[|i]]; cbn [nth_error] in *.
    + reflexivity.
    + discriminate.
    + apply IH. exact H.
Qed.

(** C5.  The Batch Writer cuts its input into consecutive groups of at most
    ten entries, in order (every group but the last holds exactly ten), and
    issues one PATCH per group in that order, each followed by the pause;
    25 entries give groups of 10, 10 and 5, and the empty list gives no
    request at all. *)
Theorem batch_writer_groups (l : list value) (tr : trace) :
  (forall t, exists r, network t = Ok r) ->
  exists groups : list (list value),
    batch_update_airtable l tr = (Ok tt, tr ++ flat_map patch_events groups)
    /\ concat groups = l
    /\ Forall (fun g => 1 <= List.length g <= 10) groups
    /\ (forall i, S i < List.length groups ->
                  List.length (nth i groups []) = 10)
    /\ count_patches (flat_map patch_events groups) = List.length groups
    /\ List.length groups = (List.length l + 9) / 10
    /\ (l = [] -> groups = [])
    /\ (List.length l = 25 -> map (@List.length value) groups = [10; 10; 5]).
Proof.
  intros Hnet. exists (chunks l). unfold chunks.
  split; [apply batch_update_trace; exact Hnet|].
  split; [apply chunks_aux_concat; lia|].
  split; [apply chunks_aux_sizes|].
  split; [intros i Hi; apply chunks_aux_full; [lia | exact Hi]|].
  split; [apply count_patches_events|].
  split; [apply chunks_aux_count; lia|].
  split.
  - intros ->. reflexivity.
  - intros H25.
    do 25 (destruct l as [|? l]; [discriminate|]).
    destruct l; [reflexivity | discriminate].
Qed.

(** C9.  On a non-empty list the Batch Writer pauses 250 ms after every
    PATCH, the last one included: the pauses are as many as the requests,
    and the last thing it does is a pause. *)
Theorem batch_writer_pause_after_every_request (l : list value) (tr : trace) :
  l <> [] ->
  (forall t, exists r, network t = Ok r) ->
  exists issued : trace,
    batch_update_airtable l tr = (Ok tt, tr ++ issued)
    /\ 1 <= count_patches issued
    /\ count_sleeps issued = count_patches issued
    /\ List.last issued (EvSleep 0) = EvSleep 250
    /\ (forall i url h b,
          nth_error issued i = Some (EvPatch url h b) ->
          nth_error issued (S i) = Some (EvSleep 250)).
Proof.
  intros Hne Hnet. exists (flat_map patch_events (chunks l)).
  assert (Hc : chunks l <> []).
  { destruct l as [|x r]; [congruence|]. unfold chunks. cbn. discriminate. }
  split; [apply batch_update_trace; exact Hnet|].
  rewrite count_patches_events, count_sleeps_events.
  split; [destruct (chunks l); [congruence | cbn; lia]|].
  split; [reflexivity|].
  split; [apply last_events; exact Hc|].
  intros i url h b. apply pause_follows_patch.
Qed.

(** *** int *)

Lemma digit_not_space a : is_digit a = true -> is_space a = false.
Proof.
  unfold is_digit, is_space. intros H.
  apply andb_true_iff in H as [H1 H2]. apply Nat.leb_le in H1, H2.
  apply orb_false_iff. split.
  - apply andb_false_iff. right. apply Nat.leb_gt. lia.
  - apply Nat.eqb_neq. lia.
Qed.

Lemma digit_ascii a : is_digit a = true -> Nat.ltb (nat_of_ascii a) 128 = true.
Proof.
  unfold is_digit. intros H. apply andb_true_iff in H as [_ H2].
  apply Nat.leb_le in H2. apply Nat.ltb_lt. lia.
Qed.

Lemma space_ascii a : is_space a = true -> Nat.ltb (nat_of_ascii a) 128 = true.
Proof.
  unfold is_space. intros H. apply Nat.ltb_lt.
  apply orb_true_iff in H as [H | H].
  - apply andb_true_iff in H as [_ H2]. apply Nat.leb_le in H2. lia.
  - apply Nat.eqb_eq in H. lia.
Qed.

Lemma forallb_str_isascii p s :
  (forall a, p a = true -> Nat.ltb (nat_of_ascii a) 128 = true) ->
  forallb_str p s = true -> isascii s = true.
Proof.
  intros Hp. induction s as [|a t IH]; [reflexivity|].
  cbn [forallb_str isascii]. intros H. apply andb_true_iff in H as [Ha Ht].
  rewrite (Hp a Ha), (IH Ht). reflexivity.
Qed.

Lemma rstrip_space_none s :
  forallb_str (fun a => negb (is_space a)) s = true -> rstrip_space s = s.
Proof.
  induction s as [|a t IH]; [reflexivity|]. cbn [forallb_str rstrip_space].
  intros H. apply andb_true_iff in H as [Ha Ht]. apply negb_true_iff in Ha.
  rewrite (IH Ht), Ha. destruct t; reflexivity.
Qed.

Lemma digits_no_space s :
  forallb_str is_digit s = true ->
  forallb_str (fun a => negb (is_space a)) s = true.
Proof.
  induction s as [|a t IH]; [reflexivity|]. cbn [forallb_str].
  intros H. apply andb_true_iff in H as [Ha Ht].
  rewrite (digit_not_space a Ha), (IH Ht). reflexivity.
Qed.

Lemma digits_aux_digits s acc n :
  forallb_str is_digit s = true ->
  digits_aux s acc n true = Some (decimal_from acc s, n + String.length s).
Proof.
  revert acc n. induction s as [|a t IH]; intros acc n H.
  - cbn. rewrite Nat.add_0_r. reflexivity.
  - cbn [forallb_str] in H. apply andb_true_iff in H as [Ha Ht].
    cbn [digits_aux decimal_from String.length]. rewrite Ha, (IH _ _ Ht).
    f_equal. f_equal. lia.
Qed.

Lemma digit_not_sign a :
  is_digit a = true ->
  Ascii.eqb a "-" = false /\ Ascii.eqb a "+" = false.
Proof.
  intros H. split.
  - destruct (Ascii.eqb a "-") eqn:E; [|reflexivity].
    apply Ascii.eqb_eq in E. subst a. discriminate H.
  - destruct (Ascii.eqb a "+") eqn:E; [|reflexivity].
    apply Ascii.eqb_eq in E. subst a. discriminate H.
Qed.

(** [int] on a string of one to 4300 digits: its decimal value. *)
Lemma int_of_str_digits s :
  digit_string s = true -> int_of_str s = Ok (decimal_value s).
Proof.
  unfold digit_string. intros H.
  apply andb_true_iff in H as [H Hlen]. apply andb_true_iff in H as [Hne Hd].
  apply Nat.leb_le in Hlen.
  destruct s as [|a t]; [discriminate Hne|].
  pose proof Hd as Hd'. cbn [forallb_str] in Hd'.
  apply andb_true_iff in Hd' as [Ha Ht].
  unfold int_of_str.
  assert (Hl : lstrip_space (String a t) = String a t).
  { cbn [lstrip_space]. rewrite (digit_not_space a Ha). reflexivity. }
  rewrite Hl, (rstrip_space_none _ (digits_no_space _ Hd)).
  destruct (digit_not_sign a Ha) as [-> ->].
  cbn [digits_aux]. rewrite Ha, (digits_aux_digits t _ _ Ht).
  cbn [String.length] in Hlen.
  assert (Hn : Nat.ltb max_str_digits (1 + String.length t) = false)
    by (apply Nat.ltb_ge; exact Hlen).
  rewrite Hn. reflexivity.
Qed.

Lemma lstrip_space_blank s : blank s = true -> lstrip_space s = "".
Proof.
  unfold blank. induction s as [|a t IH]; [reflexivity|].
  cbn [forallb_str lstrip_space]. intros H.
  apply andb_true_iff in H as [Ha Ht]. rewrite Ha. exact (IH Ht).
Qed.

Lemma lstrip_space_foreign s :
  has_foreign_char s = true -> has_foreign_char (lstrip_space s) = true.
Proof.
  induction s as [|a t IH]; [discriminate|].
  cbn [lstrip_space]. destruct (is_space a) eqn:E; [|trivial].
  cbn [has_foreign_char]. unfold foreign_char. rewrite E, !orb_true_r.
  cbn [negb orb]. exact IH.
Qed.

Lemma rstrip_space_foreign s :
  has_foreign_char s = true -> has_foreign_char (rstrip_space s) = true.
Proof.
  induction s as [|a t IH]; [discriminate|].
  cbn [has_foreign_char rstrip_space]. intros H.
  destruct (foreign_char a) eqn:Ef.
  - assert (Es : is_space a = false).
    { unfold foreign_char in Ef. apply negb_true_iff in Ef.
      repeat (apply orb_false_iff in Ef as [Ef ?]). assumption. }
    destruct (rstrip_space t); cbn [has_foreign_char]; rewrite ?Es;
      cbn [has_foreign_char]; rewrite Ef; reflexivity.
  - cbn [orb] in H. specialize (IH H).
    destruct (rstrip_space t) as [|b r]; [discriminate IH|].
    cbn [has_foreign_char] in *. rewrite IH. apply orb_true_r.
Qed.

Lemma digits_aux_foreign s acc n prev :
  has_foreign_char s = true -> digits_aux s acc n prev = None.
Proof.
  revert acc n prev. induction s as [|a t IH]; intros acc n prev H;
    [discriminate|].
  cbn [has_foreign_char] in H. cbn [digits_aux].
  destruct (foreign_char a) eqn:Ef.
  - unfold foreign_char in Ef. apply negb_true_iff in Ef.
    repeat (apply orb_false_iff in Ef as [Ef ?]).
    rewrite Ef.
    match goal with E : Ascii.eqb a "_" = false |- _ => rewrite E end.
    reflexivity.
  - cbn [orb] in H. destruct (is_digit a); [apply IH; exact H|].
    destruct (Ascii.eqb a "_" && prev); [apply IH; exact H | reflexivity].
Qed.

(** [int] on a blank string, or on a string that holds a character no
    integer literal has: ValueError. *)
Lemma int_of_str_rejects s :
  blank s = true \/ has_foreign_char s = true ->
  int_of_str s = Raise ValueError.
Proof.
  intros [H | H]; unfold int_of_str.
  - rewrite (lstrip_space_blank s H). reflexivity.
  - pose proof (rstrip_space_foreign _ (lstrip_space_foreign _ H)) as Hb.
    destruct (rstrip_space (lstrip_space s)) as [|a t]; [discriminate Hb|].
    destruct (Ascii.eqb a "-") eqn:E1.
    + apply Ascii.eqb_eq in E1. subst a. cbn [has_foreign_char] in Hb.
      change (foreign_char "-") with false in Hb. cbn [orb] in Hb.
      rewrite (digits_aux_foreign _ _ _ _ Hb). reflexivity.
    + destruct (Ascii.eqb a "+") eqn:E2.
      * apply Ascii.eqb_eq in E2. subst a. cbn [has_foreign_char] in Hb.
        change (foreign_char "+") with false in Hb. cbn [orb] in Hb.
        rewrite (digits_aux_foreign _ _ _ _ Hb). reflexivity.
      * rewrite (digits_aux_foreign _ _ _ _ Hb). reflexivity.
Qed.

(** How [int] treats each kind of counter. *)
Lemma py_int_kinds x :
  match x with
  | PInt z => py_int to_ascii_digits x = Ok z
  | PBool b => py_int to_ascii_digits x = Ok (if b then 1%Z else 0%Z)
  | PFloat (FFinite m e) =>
      py_int to_ascii_digits x
      = Ok (if Z.leb 0 e then (m * 2 ^ e)%Z else Z.quot m (2 ^ (- e)))
  | PFloat (FInf _) => py_int to_ascii_digits x = Raise OverflowError
  | PFloat FNaN => py_int to_ascii_digits x = Raise ValueError
  | PNone | PList _ | PDict _ => py_int to_ascii_digits x = Raise TypeError
  | PStr s =>
      (digit_string s = true ->
       py_int to_ascii_digits x = Ok (decimal_value s))
      /\ (blank s = true -> py_int to_ascii_digits x = Raise ValueError)
      /\ (isascii s = true -> has_foreign_char s = true ->
          py_int to_ascii_digits x = Raise ValueError)
  end.
Proof.
  destruct x as [| b | z | [m e | neg |] | s | l | kv]; try reflexivity.
  cbn [py_int]. split; [|split].
  - intros H. assert (Ha : isascii s = true).
    { unfold digit_string in H. apply andb_true_iff in H as [H _].
      apply andb_true_iff in H as [_ H].
      apply (forallb_str_isascii is_digit); [exact digit_ascii | exact H]. }
    rewrite Ha. apply int_of_str_digits. exact H.
  - intros H. assert (Ha : isascii s = true)
      by (apply (forallb_str_isascii is_space); [exact space_ascii | exact H]).
    rewrite Ha. apply int_of_str_rejects. left. exact H.
  - intros Ha H. rewrite Ha. apply int_of_str_rejects. right. exact H.
Qed.

(** *** get_youtube_stats *)

Lemma get_youtube_stats_response video_id tr resp :
  network (tr ++ [EvGet (stats_url video_id) [] []]) = Ok resp ->
  get_youtube_stats video_id tr
  = (if negb (Z.eqb (status_code resp) 200) then Ok PNone
     else let? data := json resp in stats_of_data data,
     tr ++ [EvGet (stats_url video_id) [] []]).
Proof.
  intros H. unfold get_youtube_stats, bind, requests_get. rewrite H.
  destruct (negb (Z.eqb (status_code resp) 200)); reflexivity.
Qed.

Lemma get_youtube_stats_transport video_id tr e :
  network (tr ++ [EvGet (stats_url video_id) [] []]) = Raise e ->
  get_youtube_stats video_id tr
  = (Raise e, tr ++ [EvGet (stats_url video_id) [] []]).
Proof.
  intros H. unfold get_youtube_stats, bind, requests_get. rewrite H.
  reflexivity.
Qed.

Lemma stats_of_data_counters kv ikv rest st :
  dict_get "items" kv = Some (PList (PDict ikv :: rest)) ->
  dict_get "statistics" ikv = Some (PDict st) ->
  stats_of_data (PDict kv)
  = (let? v := counter_or_zero st "viewCount" in
     let? l := counter_or_zero st "likeCount" in
     let? c := counter_or_zero st "commentCount" in
     Ok (stats_dict v l c)).
Proof.
  intros Hi Hs. unfold stats_of_data, py_in, getitem_str, getitem_0,
    get_default, counter_or_zero.
  rewrite Hi. cbn [rbind truthy]. rewrite Hs. cbn [rbind].
  destruct (dict_get "viewCount" st), (dict_get "likeCount" st),
    (dict_get "commentCount" st); reflexivity.
Qed.

(** What the lookup returns is [None] or a dict of three integers. *)
Lemma stats_of_data_shape data r :
  stats_of_data data = Ok r ->
  r = PNone \/ exists v l c, r = stats_dict v l c.
Proof.
  unfold stats_of_data. intros H.
  destruct (py_in "items" data) as [b|]; [|discriminate].
  cbn [rbind] in H.
  destruct (if b then let? items := getitem_str data "items" in Ok (truthy items)
            else Ok false) as [t|]; [|discriminate].
  cbn [rbind] in H. destruct t.
  - destruct (getitem_str data "items") as [items|]; [|discriminate].
    cbn [rbind] in H.
    destruct (getitem_0 items) as [item|]; [|discriminate]. cbn [rbind] in H.
    destruct (getitem_str item "statistics") as [stats|]; [|discriminate].
    cbn [rbind] in H.
    destruct (get_default stats "viewCount" (PInt 0)) as [v|]; [|discriminate].
    cbn [rbind] in H. destruct (py_int to_ascii_digits v) as [views|]; [|discriminate].
    cbn [rbind] in H.
    destruct (get_default stats "likeCount" (PInt 0)) as [l|]; [|discriminate].
    cbn [rbind] in H. destruct (py_int to_ascii_digits l) as [likes|]; [|discriminate].
    cbn [rbind] in H.
    destruct (get_default stats "commentCount" (PInt 0)) as [c|]; [|discriminate].
    cbn [rbind] in H. destruct (py_int to_ascii_digits c) as [comments|]; [|discriminate].
    cbn [rbind] in H. injection H as <-. right.
    exists views, likes, comments. reflexivity.
  - injection H as <-. left. reflexivity.
Qed.

Lemma get_youtube_stats_shape video_id tr r tr' :
  get_youtube_stats video_id tr = (Ok r, tr') ->
  r = PNone \/ exists v l c, r = stats_dict v l c.
Proof.
  unfold get_youtube_stats, bind, requests_get. intros H.
  destruct (network (tr ++ [EvGet (stats_url video_id) [] []])) as [resp|];
    [|discriminate].
  destruct (negb (Z.eqb (status_code resp) 200)).
  - injection H as <- _. left. reflexivity.
  - unfold lift in H. injection H as H _.
    destruct (json resp) as [data|]; [|discriminate].
    apply stats_of_data_shape with (data := data). exact H.
Qed.

(** C6.  The Statistics Lookup returns [None] when the status is not 200
    (so for every non-success status), and when the status is 200 and the
    decoded object has no [items] key or an empty [items] array. *)
Theorem lookup_none_on_failure_or_no_items
  (video_id : string) (tr : trace) (resp : response) :
  network (tr ++ [EvGet (stats_url video_id) [] []]) = Ok resp ->
  (status_code resp <> 200%Z
   \/ exists kv, json resp = Ok (PDict kv)
                 /\ (dict_get "items" kv = None
                     \/ dict_get "items" kv = Some (PList []))) ->
  get_youtube_stats video_id tr
  = (Ok PNone, tr ++ [EvGet (stats_url video_id) [] []]).
Proof.
  intros Hnet H. rewrite (get_youtube_stats_response _ _ _ Hnet).
  destruct (Z.eqb (status_code resp) 200) eqn:E; cbn [negb]; [|reflexivity].
  apply Z.eqb_eq in E.
  destruct H as [H | (kv & Hj & [Hi | Hi])]; [congruence| |];
    rewrite Hj; cbn [rbind]; unfold stats_of_data, py_in, getitem_str;
    rewrite Hi; reflexivity.
Qed.

(** C3 (amended).  On a 200 response whose [items] array starts with an
    object holding a [statistics] object, the lookup returns the three
    counters, each one 0 on its own when its field is absent.  A counter
    that is present goes through [int]: an integer is kept, [true] and
    [false] give 1 and 0, a finite float is cut towards zero, a string of
    one to 4300 ASCII digits gives its decimal value.  [int] raises, and
    the lookup with it, on null, a list or an object (TypeError), on NaN
    (ValueError) and an infinity (OverflowError), and on a blank string or
    an ASCII string with a character that is no digit, sign, underscore or
    whitespace (ValueError). *)
Theorem lookup_counters_default_zero_or_raise
  (video_id : string) (tr : trace) (resp : response)
  (kv ikv st : list (string * value)) (rest : list value) :
  network (tr ++ [EvGet (stats_url video_id) [] []]) = Ok resp ->
  status_code resp = 200%Z ->
  json resp = Ok (PDict kv) ->
  dict_get "items" kv = Some (PList (PDict ikv :: rest)) ->
  dict_get "statistics" ikv = Some (PDict st) ->
  (forall k, dict_get k st = None -> counter_or_zero st k = Ok 0%Z)
  /\ (forall v l c,
        counter_or_zero st "viewCount" = Ok v ->
        counter_or_zero st "likeCount" = Ok l ->
        counter_or_zero st "commentCount" = Ok c ->
        get_youtube_stats video_id tr
        = (Ok (stats_dict v l c), tr ++ [EvGet (stats_url video_id) [] []]))
  /\ (forall k x e,
        In k ["viewCount"; "likeCount"; "commentCount"] ->
        dict_get k st = Some x -> py_int to_ascii_digits x = Raise e ->
        exists e', get_youtube_stats video_id tr
                   = (Raise e', tr ++ [EvGet (stats_url video_id) [] []]))
  /\ (forall k x,
        dict_get k st = Some x ->
        match x with
        | PInt z => counter_or_zero st k = Ok z
        | PBool b => counter_or_zero st k = Ok (if b then 1%Z else 0%Z)
        | PFloat (FFinite m e) =>
            counter_or_zero st k
            = Ok (if Z.leb 0 e then (m * 2 ^ e)%Z else Z.quot m (2 ^ (- e)))
        | PFloat (FInf _) => counter_or_zero st k = Raise OverflowError
        | PFloat FNaN => counter_or_zero st k = Raise ValueError
        | PNone | PList _ | PDict _ => counter_or_zero st k = Raise TypeError
        | PStr s =>
            (digit_string s = true ->
             counter_or_zero st k = Ok (decimal_value s))
            /\ (blank s = true -> counter_or_zero st k = Raise ValueError)
            /\ (isascii s = true -> has_foreign_char s = true ->
                counter_or_zero st k = Raise ValueError)
        end)
  /\ (forall k x,
        In k ["viewCount"; "likeCount"; "commentCount"] ->
        dict_get k st = Some x ->
        match x with
        | PNone | PList _ | PDict _ | PFloat (FInf _) | PFloat FNaN => True
        | PStr s =>
            blank s = true \/ (isascii s = true /\ has_foreign_char s = true)
        | _ => False
        end ->
        exists e', get_youtube_stats video_id tr
                   = (Raise e', tr ++ [EvGet (stats_url video_id) [] []])).
Proof.
  intros Hnet Hs Hj Hi Hst.
  assert (Hrun : get_youtube_stats video_id tr
                 = (let? v := counter_or_zero st "viewCount" in
                    let? l := counter_or_zero st "likeCount" in
                    let? c := counter_or_zero st "commentCount" in
                    Ok (stats_dict v l c),
                    tr ++ [EvGet (stats_url video_id) [] []])).
  { rewrite (get_youtube_stats_response _ _ _ Hnet), Hs, Hj.
    cbn [Z.eqb Pos.eqb negb rbind].
    rewrite (stats_of_data_counters _ _ _ _ Hi Hst). reflexivity. }
  assert (Hraise : forall k x e,
             In k ["viewCount"; "likeCount"; "commentCount"] ->
             dict_get k st = Some x -> py_int to_ascii_digits x = Raise e ->
             exists e', get_youtube_stats video_id tr
                        = (Raise e', tr ++ [EvGet (stats_url video_id) [] []])).
  { intros k x e Hin Hk Hx. rewrite Hrun.
    assert (Hr : counter_or_zero st k = Raise e).
    { unfold counter_or_zero. rewrite Hk. exact Hx. }
    destruct Hin as [<- | [<- | [<- | []]]].
    + rewrite Hr. eexists. reflexivity.
    + rewrite Hr. destruct (counter_or_zero st "viewCount");
        eexists; reflexivity.
    + rewrite Hr. destruct (counter_or_zero st "viewCount");
        [destruct (counter_or_zero st "likeCount")|]; eexists; reflexivity. }
  split; [|split; [|split; [|split]]].
  - intros k Hk. unfold counter_or_zero. rewrite Hk. reflexivity.
  - intros v l c Hv Hl Hc. rewrite Hrun, Hv, Hl, Hc. reflexivity.
  - exact Hraise.
  - intros k x Hk. unfold counter_or_zero. rewrite Hk. apply py_int_kinds.
  - intros k x Hin Hk Hx. pose proof (py_int_kinds x) as Hkind.
    destruct x as [| b | z | [m e | neg |] | s | l | kvx];
      try (destruct Hx); try (eapply Hraise; eassumption).
    + destruct Hkind as (_ & Hb & _). eapply Hraise; [exact Hin | exact Hk|].
      apply Hb. assumption.
    + destruct Hkind as (_ & _ & Hf). eapply Hraise; [exact Hin | exact Hk|].
      destruct H as [Ha Hfc]. apply Hf; assumption.
Qed.

(** *** get_airtable_records *)

Lemma fetch_loop_page fuel offset all_records tr resp data added offset' :
  network (tr ++ [fetch_event offset]) = Ok resp ->
  json resp = Ok data ->
  read_page data = Ok (added, offset') ->
  fetch_loop (S fuel) offset all_records tr
  = if negb (truthy offset')
    then (Ok (Some (all_records ++ added)), tr ++ [fetch_event offset])
    else fetch_loop fuel offset' (all_records ++ added)
           (tr ++ [fetch_event offset]).
Proof.
  intros Hnet Hj Hp. cbn [fetch_loop]. unfold bind at 1.
  unfold requests_get at 1. fold (fetch_event offset). rewrite Hnet.
  unfold bind at 1. unfold lift at 1. rewrite Hj. cbn [rbind]. rewrite Hp.
  destruct (negb (truthy offset')); reflexivity.
Qed.

(** C10.  A page whose object has no [records] key adds no record and does
    not raise; and the loop stops after a page whose cursor is absent or
    falsy (the empty string, null, 0, false, an empty list or object), not
    only when the [offset] key is missing.  The status code of the page is
    not looked at. *)
Theorem fetcher_missing_records_and_falsy_cursor
  (fuel : nat) (offset : value) (all_records : list value) (tr : trace)
  (resp : response) (kv : list (string * value)) :
  network (tr ++ [fetch_event offset]) = Ok resp ->
  json resp = Ok (PDict kv) ->
  (dict_get "records" kv = None ->
     (forall c, dict_get "offset" kv = Some c -> truthy c = true ->
        fetch_loop (S fuel) offset all_records tr
        = fetch_loop fuel c all_records (tr ++ [fetch_event offset]))
     /\ (dict_get "offset" kv = None
         \/ (exists c, dict_get "offset" kv = Some c /\ truthy c = false) ->
         fetch_loop (S fuel) offset all_records tr
         = (Ok (Some all_records), tr ++ [fetch_event offset])))
  /\ (forall l,
        dict_get "records" kv = Some (PList l) ->
        dict_get "offset" kv = None
        \/ dict_get "offset" kv = Some (PStr "")
        \/ (exists c, dict_get "offset" kv = Some c /\ truthy c = false) ->
        fetch_loop (S fuel) offset all_records tr
        = (Ok (Some (all_records ++ l)), tr ++ [fetch_event offset])).
Proof.
  intros Hnet Hj. split.
  - intros Hr. split.
    + intros c Hc Ht.
      rewrite (fetch_loop_page fuel offset all_records tr resp (PDict kv) [] c
                 Hnet Hj).
      * rewrite Ht, app_nil_r. reflexivity.
      * unfold read_page, get_default. rewrite Hr, Hc. reflexivity.
    + intros [Hc | (c & Hc & Ht)].
      * rewrite (fetch_loop_page fuel offset all_records tr resp (PDict kv) []
                   PNone Hnet Hj).
        -- rewrite app_nil_r. reflexivity.
        -- unfold read_page, get_default. rewrite Hr, Hc. reflexivity.
      * rewrite (fetch_loop_page fuel offset all_records tr resp (PDict kv) []
                   c Hnet Hj).
        -- rewrite Ht, app_nil_r. reflexivity.
        -- unfold read_page, get_default. rewrite Hr, Hc. reflexivity.
  - intros l Hr Hc.
    assert (Hc' : exists c, read_page (PDict kv) = Ok (l, c) /\ truthy c = false).
    { unfold read_page, get_default. rewrite Hr. cbn [rbind py_iter].
      destruct Hc as [Hc | [Hc | (c & Hc & Ht)]]; rewrite Hc;
        eexists; split; try reflexivity; exact Ht. }
    destruct Hc' as (c & Hp & Ht).
    rewrite (fetch_loop_page fuel offset all_records tr resp (PDict kv) l c
               Hnet Hj Hp).
    rewrite Ht. reflexivity.
Qed.

(** *** Strings *)

Lemma find_absent c s : mem_char c s = false -> find c s = None.
Proof.
  induction s as [|a t IH]; [reflexivity|]. cbn [mem_char find].
  intros H. apply orb_false_iff in H as [Ha Ht]. rewrite Ha, (IH Ht).
  reflexivity.
Qed.

Lemma split_once_absent c s : mem_char c s = false -> split_once c s = None.
Proof.
  induction s as [|a t IH]; [reflexivity|]. cbn [mem_char split_once].
  intros H. apply orb_false_iff in H as [Ha Ht]. rewrite Ha, (IH Ht).
  reflexivity.
Qed.

Lemma remove_char_absent c s : mem_char c s = false -> remove_char c s = s.
Proof.
  induction s as [|a t IH]; [reflexivity|]. cbn [mem_char remove_char].
  intros H. apply orb_false_iff in H as [Ha Ht]. rewrite Ha, (IH Ht).
  reflexivity.
Qed.

Lemma lstrip_absent c s :
  mem_char c s = false -> lstrip (String c "") s = s.
Proof.
  destruct s as [|a t]; [reflexivity|]. cbn [mem_char lstrip].
  intros H. apply orb_false_iff in H as [Ha _].
  rewrite Ascii.eqb_sym, Ha. reflexivity.
Qed.

Lemma rstrip_absent c s :
  mem_char c s = false -> rstrip (String c "") s = s.
Proof.
  induction s as [|a t IH]; [reflexivity|]. cbn [mem_char rstrip].
  intros H. apply orb_false_iff in H as [Ha Ht].
  rewrite (IH Ht), Ascii.eqb_sym, Ha.
  destruct t; reflexivity.
Qed.

Lemma mem_char_app c p s :
  mem_char c (p ++ s) = mem_char c p || mem_char c s.
Proof.
  induction p as [|a t IH]; [reflexivity|].
  cbn [String.append mem_char]. rewrite IH. apply orb_assoc.
Qed.

Lemma str_length_app p s :
  String.length (p ++ s) = String.length p + String.length s.
Proof.
  induction p as [|a t IH]; [reflexivity|].
  cbn [String.append String.length]. rewrite IH. reflexivity.
Qed.

Lemma take_app p s : take (String.length p) (p ++ s) = p.
Proof.
  induction p as [|a t IH]; [destruct s; reflexivity|].
  cbn [String.append String.length take]. rewrite IH. reflexivity.
Qed.

Lemma drop_app p s : drop (String.length p) (p ++ s) = s.
Proof.
  induction p as [|a t IH]; [destruct s; reflexivity|].
  cbn [String.append String.length drop]. exact IH.
Qed.

Lemma find_app_absent c p s :
  mem_char c p = false ->
  find c (p ++ s) = option_map (Nat.add (String.length p)) (find c s).
Proof.
  induction p as [|a t IH]; intros H.
  - cbn. destruct (find c s); reflexivity.
  - cbn [mem_char] in H. apply orb_false_iff in H as [Ha Ht].
    cbn [String.append find String.length]. rewrite Ha, (IH Ht).
    destruct (find c s); reflexivity.
Qed.

(** *** urlparse on https URLs *)

Lemma plain_path_absent p c :
  plain_path p = true -> ends_path c = true -> mem_char c p = false.
Proof.
  intros H Hc. induction p as [|a t IH]; [reflexivity|].
  cbn [plain_path forallb_str mem_char] in *.
  apply andb_true_iff in H as [Ha Ht]. rewrite (IH Ht), orb_false_r.
  destruct (Ascii.eqb a c) eqn:E; [|reflexivity].
  apply Ascii.eqb_eq in E. subst a. rewrite Hc in Ha. discriminate.
Qed.

Lemma plain_path_app p q :
  plain_path (p ++ q) = plain_path p && plain_path q.
Proof.
  induction p as [|a t IH]; [reflexivity|].
  cbn [String.append plain_path forallb_str] in *.
  unfold plain_path in IH. rewrite IH. apply andb_assoc.
Qed.

Lemma remove_unsafe_clean s :
  mem_char TAB s = false -> mem_char CR s = false -> mem_char LF s = false ->
  remove_unsafe s = s.
Proof.
  intros Ht Hc Hl. unfold remove_unsafe.
  rewrite (remove_char_absent _ _ Ht), (remove_char_absent _ _ Hc).
  apply remove_char_absent. exact Hl.
Qed.

Lemma splitnetloc_host h p :
  mem_char "/" h = false -> mem_char "?" h = false -> mem_char "#" h = false ->
  mem_char "?" p = false -> mem_char "#" p = false ->
  _splitnetloc ("//" ++ h ++ String "/" p) 2 = (h, String "/" p).
Proof.
  intros H1 H2 H3 H4 H5. unfold _splitnetloc, find_from.
  change (drop 2 ("//" ++ h ++ String "/" p)%string) with (h ++ String "/" p)%string.
  cbn [fold_left].
  rewrite (find_app_absent _ _ _ H1), (find_app_absent _ _ _ H2),
    (find_app_absent _ _ _ H3).
  cbn [find]. change (Ascii.eqb "/" "/") with true.
  change (Ascii.eqb "/" "?") with false. change (Ascii.eqb "/" "#") with false.
  rewrite (find_absent _ _ H4), (find_absent _ _ H5). cbn [option_map].
  change (String.length ("//" ++ h ++ String "/" p)%string)
    with (2 + String.length (h ++ String "/" p)%string).
  rewrite str_length_app. cbn [String.length].
  rewrite Nat.min_r by lia.
  replace (2 + (String.length h + 0) - 2) with (String.length h) by lia.
  replace (2 + (String.length h + 0)) with (S (S (String.length h))) by lia.
  cbn [String.append drop]. rewrite take_app, drop_app. reflexivity.
Qed.

(** [urlparse] on [https://<host>/<path>]. *)
Lemma urlparse_https h p :
  plain_host h = true -> plain_path p = true ->
  urlparse bracketed_netloc_ok nfkc_netloc_ok ("https://" ++ h ++ String "/" p)
  = Ok {| scheme := "https"; netloc := h; path := String "/" p;
          params := ""; query := ""; fragment := "" |}.
Proof.
  intros Hh Hp. unfold plain_host in Hh.
  repeat (apply andb_true_iff in Hh as [Hh ?]).
  repeat match goal with
         | H : negb _ = true |- _ => apply negb_true_iff in H
         end.
  assert (Hhp : plain_path (h ++ String "/" p) = true).
  { rewrite plain_path_app, Hh. cbn [plain_path forallb_str andb] in *.
    exact Hp. }
  assert (Hq : forall c, ends_path c = true -> mem_char c (String "/" p) = false).
  { intros c Hc. cbn [mem_char]. rewrite (plain_path_absent _ _ Hp Hc).
    destruct (Ascii.eqb "/" c) eqn:E; [|reflexivity].
    apply Ascii.eqb_eq in E. subst c. discriminate. }
  unfold urlparse, urlsplit.
  change (lstrip_c0 ("https://" ++ h ++ String "/" p)%string)
    with ("https://" ++ h ++ String "/" p)%string.
  rewrite remove_unsafe_clean.
  2-4: change ("https://" ++ h ++ String "/" p)%string
         with ("https://" ++ (h ++ String "/" p))%string;
       rewrite mem_char_app;
       rewrite (plain_path_absent _ _ Hhp) by reflexivity; reflexivity.
  change (split_scheme ("https://" ++ h ++ String "/" p)%string)
    with ("https", ("//" ++ h ++ String "/" p)%string).
  cbv beta iota.
  unfold split_netloc.
  change (take 2 ("//" ++ h ++ String "/" p)%string) with "//".
  change (String.eqb "//" "//") with true. cbv iota.
  rewrite splitnetloc_host; try assumption;
    try (apply (plain_path_absent _ _ Hh); reflexivity);
    try (apply (plain_path_absent _ _ Hp); reflexivity).
  match goal with
  | H : mem_char "[" h = false |- _ => rewrite H
  end.
  match goal with
  | H : mem_char "]" h = false |- _ => rewrite H
  end.
  cbn [andb orb negb rbind].
  rewrite (split_once_absent _ _ (Hq "#"%char eq_refl)).
  rewrite (split_once_absent _ _ (Hq "?"%char eq_refl)).
  unfold _checknetloc.
  match goal with
  | H : isascii h = true |- _ => rewrite H
  end.
  rewrite orb_true_r. cbn [rbind scheme path].
  rewrite (Hq ";"%char eq_refl), andb_false_r. reflexivity.
Qed.

(** *** extract_video_id *)

Lemma split_no_sep sep s :
  contains sep s = false -> split_aux sep s 0 = [s].
Proof.
  induction s as [|a t IH]; intros H; [reflexivity|].
  cbn [contains] in H. apply orb_false_iff in H as [Hs Ht].
  cbn [split_aux]. rewrite Hs, (IH Ht). reflexivity.
Qed.

Lemma contains_slash_app x id r :
  mem_char "/" id = false ->
  contains (String "/" x) (id ++ r) = contains (String "/" x) r.
Proof.
  induction id as [|a t IH]; intros H; [reflexivity|].
  cbn [mem_char] in H. apply orb_false_iff in H as [Ha Ht].
  cbn [String.append contains startswith].
  rewrite Ascii.eqb_sym, Ha, (IH Ht). reflexivity.
Qed.

Lemma split_slash_app id r :
  mem_char "/" id = false ->
  split "/" (id ++ String "/" r) = id :: split "/" r.
Proof.
  unfold split. induction id as [|a t IH]; intros H; [reflexivity|].
  cbn [mem_char] in H. apply orb_false_iff in H as [Ha Ht].
  cbn [String.append split_aux startswith].
  rewrite Ascii.eqb_sym, Ha, (IH Ht). reflexivity.
Qed.

Lemma extract_https h p :
  plain_host h = true -> plain_path p = true ->
  extract_video_id (PStr ("https://" ++ h ++ String "/" p))
  = if contains "youtu.be" h then Ok (Some (strip "/" (String "/" p)))
    else if contains "youtube.com" h && startswith "/live/" (String "/" p)
    then Ok (Some (first_str (split "/"
                     (last_str (split "/live/" (String "/" p))))))
    else if contains "youtube.com" h then Ok None
    else Ok None.
Proof.
  intros Hh Hp. unfold extract_video_id.
  change (truthy (PStr ("https://" ++ h ++ String "/" p))) with true.
  cbn [negb]. unfold extract_from_str.
  rewrite (urlparse_https h p Hh Hp). cbn [rbind netloc path query].
  destruct (contains "youtu.be" h); [reflexivity|].
  destruct (contains "youtube.com" h && startswith "/live/" (String "/" p));
    [reflexivity|].
  destruct (contains "youtube.com" h); reflexivity.
Qed.

(** On a main-domain URL whose path is ["/live/"] followed by a rest that
    holds no further ["/live/"], the extractor returns the segment right
    after ["/live/"]. *)
Lemma extract_live_single h rest :
  plain_host h = true -> plain_path rest = true ->
  contains "youtu.be" h = false -> contains "youtube.com" h = true ->
  contains "/live/" rest = false ->
  extract_video_id (PStr ("https://" ++ h ++ "/live/" ++ rest))
  = Ok (Some (segment_after_live ("/live/" ++ rest))).
Proof.
  intros Hh Hp Hs Hm Hl.
  change ("https://" ++ h ++ "/live/" ++ rest)%string
    with ("https://" ++ h ++ String "/" ("live/" ++ rest))%string.
  rewrite extract_https; [|exact Hh|].
  - rewrite Hs, Hm.
    change (startswith "/live/" (String "/" ("live/" ++ rest))) with true.
    cbn [andb]. unfold segment_after_live.
    change (drop 6 ("/live/" ++ rest)) with rest.
    change (split "/live/" (String "/" ("live/" ++ rest)))
      with ("" :: split_aux "/live/" rest 0).
    rewrite (split_no_sep _ _ Hl). reflexivity.
  - rewrite plain_path_app, Hp. reflexivity.
Qed.

(** The form [https://<maindomain>/live/<id>/extra]. *)
Lemma extract_live_form h id :
  plain_host h = true -> plain_id id = true ->
  contains "youtu.be" h = false -> contains "youtube.com" h = true ->
  extract_video_id (PStr ("https://" ++ h ++ "/live/" ++ id ++ "/extra"))
  = Ok (Some id).
Proof.
  intros Hh Hi Hs Hm. unfold plain_id in Hi.
  apply andb_true_iff in Hi as [Hp Hn]. apply negb_true_iff in Hn.
  rewrite extract_live_single; try assumption.
  - unfold segment_after_live.
    change (drop 6 ("/live/" ++ id ++ "/extra")) with (id ++ "/extra")%string.
    change (id ++ "/extra")%string with (id ++ String "/" "extra")%string.
    rewrite (split_slash_app _ _ Hn). reflexivity.
  - rewrite plain_path_app, Hp. reflexivity.
  - rewrite (contains_slash_app _ _ _ Hn). reflexivity.
Qed.

Lemma all_char_plain_path a : all_char "/" a = true -> plain_path a = true.
Proof.
  unfold all_char, plain_path. induction a as [|x t IH]; [reflexivity|].
  cbn [forallb_str]. intros H. apply andb_true_iff in H as [Hx Ht].
  apply Ascii.eqb_eq in Hx. subst x. rewrite (IH Ht). reflexivity.
Qed.

Lemma lstrip_all c a s :
  all_char c a = true ->
  lstrip (String c "") (a ++ s) = lstrip (String c "") s.
Proof.
  unfold all_char. induction a as [|x t IH]; [reflexivity|].
  cbn [forallb_str String.append lstrip mem_char]. intros H.
  apply andb_true_iff in H as [Hx Ht].
  rewrite Ascii.eqb_sym, Hx. cbn [orb]. exact (IH Ht).
Qed.

Lemma rstrip_all_nil c b :
  all_char c b = true -> rstrip (String c "") b = "".
Proof.
  unfold all_char. induction b as [|x t IH]; [reflexivity|].
  cbn [forallb_str rstrip mem_char]. intros H.
  apply andb_true_iff in H as [Hx Ht].
  rewrite (IH Ht), Ascii.eqb_sym, Hx. reflexivity.
Qed.

Lemma rstrip_all c s b :
  all_char c b = true ->
  rstrip (String c "") (s ++ b) = rstrip (String c "") s.
Proof.
  intros H. induction s as [|x t IH].
  - cbn [String.append]. apply rstrip_all_nil. exact H.
  - cbn [String.append rstrip]. rewrite IH. reflexivity.
Qed.

(** Stripping the slashes around an identifier that holds none. *)
Lemma strip_slashes_around a id b :
  mem_char "/" id = false ->
  all_char "/" a = true -> all_char "/" b = true ->
  strip "/" (String "/" (a ++ id ++ b)) = id.
Proof.
  intros Hn Ha Hb. unfold strip.
  change (String "/" (a ++ id ++ b)) with (String "/" a ++ (id ++ b))%string.
  rewrite (lstrip_all "/" (String "/" a) (id ++ b)).
  2:{ unfold all_char in *. cbn [forallb_str]. rewrite Ha. reflexivity. }
  destruct id as [|x t].
  - cbn [String.append].
    assert (Hl : lstrip "/" b = "").
    { revert Hb. clear. unfold all_char. induction b as [|y r IH];
        [reflexivity|].
      cbn [forallb_str lstrip mem_char]. intros H.
      apply andb_true_iff in H as [Hy Hr].
      rewrite Ascii.eqb_sym, Hy. cbn [orb]. exact (IH Hr). }
    rewrite Hl. reflexivity.
  - assert (Hl : lstrip "/" (String x t ++ b) = (String x t ++ b)%string).
    { cbn [mem_char] in Hn. apply orb_false_iff in Hn as [Hx _].
      cbn [String.append lstrip mem_char]. rewrite Ascii.eqb_sym, Hx.
      reflexivity. }
    rewrite Hl, (rstrip_all "/" (String x t) b Hb).
    apply rstrip_absent. exact Hn.
Qed.

(** C8.  On [https://<host>/<id>], for a host that holds the short-link
    domain and an identifier of one path segment, the extractor returns
    exactly [<id>], which has no slash: the path of the URL is [/<id>], and
    [<id>] is that path with its leading and trailing slashes stripped.
    Slashes written before or after the identifier, as in
    [https://<host>//<id>/], are stripped as well: the result is still
    [<id>]. *)
Theorem extract_short_link (h id : string) :
  plain_host h = true ->
  contains "youtu.be" h = true ->
  plain_id id = true ->
  extract_video_id (PStr ("https://" ++ h ++ "/" ++ id)) = Ok (Some id)
  /\ mem_char "/" id = false
  /\ urlparse bracketed_netloc_ok nfkc_netloc_ok ("https://" ++ h ++ "/" ++ id)
     = Ok {| scheme := "https"; netloc := h; path := "/" ++ id;
             params := ""; query := ""; fragment := "" |}
  /\ strip "/" ("/" ++ id) = id
  /\ (forall a b,
        all_char "/" a = true -> all_char "/" b = true ->
        urlparse bracketed_netloc_ok nfkc_netloc_ok
          ("https://" ++ h ++ "/" ++ a ++ id ++ b)
        = Ok {| scheme := "https"; netloc := h; path := "/" ++ a ++ id ++ b;
                params := ""; query := ""; fragment := "" |}
        /\ strip "/" ("/" ++ a ++ id ++ b) = id
        /\ extract_video_id (PStr ("https://" ++ h ++ "/" ++ a ++ id ++ b))
           = Ok (Some id)).
Proof.
  intros Hh Hs Hi. unfold plain_id in Hi.
  apply andb_true_iff in Hi as [Hp Hn]. apply negb_true_iff in Hn.
  assert (Hstrip : strip "/" (String "/" id) = id).
  { unfold strip. cbn [lstrip mem_char]. change (Ascii.eqb "/" "/") with true.
    cbn [orb]. rewrite (lstrip_absent _ _ Hn). apply rstrip_absent. exact Hn. }
  split; [|split; [|split; [|split]]].
  - change ("https://" ++ h ++ "/" ++ id)%string
      with ("https://" ++ h ++ String "/" id)%string.
    rewrite (extract_https h id Hh Hp), Hs, Hstrip. reflexivity.
  - exact Hn.
  - apply (urlparse_https h id Hh Hp).
  - exact Hstrip.
  - intros a b Ha Hb.
    assert (Hpath : plain_path (a ++ id ++ b) = true).
    { rewrite !plain_path_app, (all_char_plain_path a Ha), Hp,
        (all_char_plain_path b Hb). reflexivity. }
    pose proof (strip_slashes_around a id b Hn Ha Hb) as Hab.
    change ("https://" ++ h ++ "/" ++ a ++ id ++ b)%string
      with ("https://" ++ h ++ String "/" (a ++ id ++ b))%string.
    change ("/" ++ a ++ id ++ b)%string with (String "/" (a ++ id ++ b)).
    split; [apply (urlparse_https h _ Hh Hpath)|]. split; [exact Hab|].
    rewrite (extract_https h _ Hh Hpath), Hs, Hab. reflexivity.
Qed.

(** C4.  On the main-domain URL [https://www.youtube.com/live/abc/live/def]
    the path begins with ["/live/"] and the segment right after it is
    ["abc"], but [split('/live/')[-1]] takes what follows the last
    ["/live/"]: the extractor returns ["def"]. *)
Theorem extract_live_takes_last_marker :
  let url := "https://www.youtube.com/live/abc/live/def" in
  urlparse bracketed_netloc_ok nfkc_netloc_ok url
  = Ok {| scheme := "https"; netloc := "www.youtube.com";
          path := "/live/abc/live/def"; params := ""; query := "";
          fragment := "" |}
  /\ startswith "/live/" "/live/abc/live/def" = true
  /\ segment_after_live "/live/abc/live/def" = "abc"
  /\ extract_video_id (PStr url) = Ok (Some "def").
Proof. repeat split; reflexivity. Qed.

(** C7 (amended).  The extractor returns [None] for an absent URL, for the
    empty string, and for every URL that [urlparse] accepts and whose netloc
    holds neither ["youtu.be"] nor ["youtube.com"] as a substring. *)
Theorem extract_none_without_known_host (url : value) :
  (url = PNone \/ url = PStr ""
   \/ exists s p,
        url = PStr s
        /\ urlparse bracketed_netloc_ok nfkc_netloc_ok s = Ok p
        /\ contains "youtu.be" (netloc p) = false
        /\ contains "youtube.com" (netloc p) = false) ->
  extract_video_id url = Ok None.
Proof.
  intros [-> | [-> | (s & p & -> & Hp & Hs & Hm)]]; [reflexivity..|].
  unfold extract_video_id. destruct (negb (truthy (PStr s))); [reflexivity|].
  unfold extract_from_str. rewrite Hp. cbn [rbind]. rewrite Hs, Hm.
  reflexivity.
Qed.

Lemma dict_append_nonempty name v d :
  Forall (fun kv : string * list string => snd kv <> []) d ->
  Forall (fun kv : string * list string => snd kv <> [])
         (dict_append name v d).
Proof.
  induction 1 as [|[k vs] d Hk Hd IH]; cbn [dict_append].
  - constructor; [discriminate | constructor].
  - destruct (String.eqb k name).
    + constructor; [|exact Hd]. cbn. destruct vs; discriminate.
    + constructor; assumption.
Qed.

Lemma parse_qs_nonempty qs :
  Forall (fun kv : string * list string => snd kv <> [])
         (parse_qs unquote qs).
Proof.
  unfold parse_qs.
  assert (H : Forall (fun kv : string * list string => snd kv <> []) [])
    by constructor.
  revert H. generalize (@nil (string * list string)).
  induction (parse_qsl unquote qs) as [|[n v] l IH]; intros d Hd;
    [exact Hd|].
  cbn [fold_left]. apply IH. apply dict_append_nonempty. exact Hd.
Qed.

Lemma qs_get_nonempty k d vs :
  Forall (fun kv : string * list string => snd kv <> []) d ->
  qs_get k d = Some vs -> vs <> [].
Proof.
  induction 1 as [|[k' vs'] d Hk Hd IH]; cbn [qs_get]; [discriminate|].
  destruct (String.eqb k k'); [|exact IH].
  intros [= <-]. exact Hk.
Qed.

Lemma urlparse_raises s e :
  urlparse bracketed_netloc_ok nfkc_netloc_ok s = Raise e -> e = ValueError.
Proof.
  unfold urlparse, urlsplit.
  destruct (split_scheme _) as [sch url].
  unfold split_netloc.
  destruct (String.eqb (take 2 url) "//").
  - destruct (_splitnetloc url 2) as [nl rest].
    destruct (mem_char "[" nl && negb (mem_char "]" nl)
              || mem_char "]" nl && negb (mem_char "[" nl));
      [cbn; congruence|].
    destruct (mem_char "[" nl && mem_char "]" nl);
      [destruct (bracketed_netloc_ok nl); [|cbn; congruence]|];
      cbn [rbind];
      destruct (split_once "#" rest) as [[? ?]|];
      match goal with
      | |- context [split_once "?" ?u] =>
          destruct (split_once "?" u) as [[? ?]|]
      end;
      unfold _checknetloc;
      destruct (String.eqb nl "" || isascii nl);
      try destruct (nfkc_netloc_ok nl); cbn [rbind];
      repeat match goal with
             | |- context [if ?b then _ else _] => destruct b
             | |- context [_splitparams ?u] => destruct (_splitparams u)
             end; congruence.
  - cbn [rbind].
    destruct (split_once "#" url) as [[? ?]|];
      match goal with
      | |- context [split_once "?" ?u] =>
          destruct (split_once "?" u) as [[? ?]|]
      end;
      cbn [_checknetloc String.eqb orb rbind];
      repeat match goal with
             | |- context [if ?b then _ else _] => destruct b
             | |- context [_splitparams ?u] => destruct (_splitparams u)
             end; congruence.
Qed.

(** C2 (amended).  On an absent URL the extractor returns [None]; on a
    string it returns [None] or an identifier (which can be empty) whenever
    [urlparse] accepts the string, and raises ValueError exactly when
    [urlparse] does. *)
Theorem extract_video_id_outcomes (s : string) :
  extract_video_id PNone = Ok None
  /\ match urlparse bracketed_netloc_ok nfkc_netloc_ok s with
     | Ok _ => exists r : option string, extract_video_id (PStr s) = Ok r
     | Raise e =>
         e = ValueError /\ extract_video_id (PStr s) = Raise ValueError
     end.
Proof.
  split; [reflexivity|].
  destruct (urlparse bracketed_netloc_ok nfkc_netloc_ok s) as [p|e] eqn:Hp.
  - unfold extract_video_id. destruct (negb (truthy (PStr s)));
      [eexists; reflexivity|].
    unfold extract_from_str. rewrite Hp. cbn [rbind].
    destruct (contains "youtu.be" (netloc p)); [eexists; reflexivity|].
    destruct (contains "youtube.com" (netloc p) && startswith "/live/" (path p));
      [eexists; reflexivity|].
    destruct (contains "youtube.com" (netloc p)); [|eexists; reflexivity].
    destruct (qs_get "v" (parse_qs unquote (query p))) as [[|v vs]|] eqn:Hq;
      try (eexists; reflexivity).
    exfalso. apply (qs_get_nonempty _ _ _ (parse_qs_nonempty _) Hq).
    reflexivity.
  - pose proof (urlparse_raises s e Hp) as ->. split; [reflexivity|].
    destruct s as [|a t]; [discriminate Hp|].
    unfold extract_video_id. cbn [truthy String.eqb negb].
    unfold extract_from_str. rewrite Hp. reflexivity.
Qed.

(** *** main *)

Lemma app_one_neq {A} (l : list A) (x : A) : l <> l ++ [x].
Proof.
  intros H. apply (f_equal (@List.length A)) in H.
  rewrite List.length_app in H. cbn in H. lia.
Qed.

Lemma main_step_append record updates tr url vid v l c id tr' :
  asset_link record = Ok url -> truthy url = true ->
  extract_video_id url = Ok (Some vid) -> vid <> "" ->
  get_youtube_stats vid tr = (Ok (stats_dict v l c), tr') ->
  getitem_str record "id" = Ok id ->
  main_step record updates tr = (Ok (updates ++ [entry_of id v l c]), tr').
Proof.
  intros Hu Ht He Hv Hs Hi. unfold main_step, bind, lift.
  rewrite Hu, Ht. cbn [negb]. rewrite He.
  apply String.eqb_neq in Hv. rewrite Hv, Hs. cbn [stats_dict truthy negb].
  unfold update_entry. rewrite Hi. reflexivity.
Qed.

Lemma main_step_skip_early record updates tr url :
  asset_link record = Ok url ->
  truthy url = false \/ extract_video_id url = Ok None
  \/ extract_video_id url = Ok (Some "") ->
  main_step record updates tr = (Ok updates, tr).
Proof.
  intros Hu H. unfold main_step, bind, lift. rewrite Hu.
  destruct (truthy url) eqn:Ht; cbn [negb]; [|reflexivity].
  destruct H as [H | [H | H]]; [discriminate| |]; rewrite H; reflexivity.
Qed.

Lemma main_step_skip_lookup record updates tr url vid tr' :
  asset_link record = Ok url -> truthy url = true ->
  extract_video_id url = Ok (Some vid) -> vid <> "" ->
  get_youtube_stats vid tr = (Ok PNone, tr') ->
  main_step record updates tr = (Ok updates, tr').
Proof.
  intros Hu Ht He Hv Hs. unfold main_step, bind, lift.
  rewrite Hu, Ht. cbn [negb]. rewrite He.
  apply String.eqb_neq in Hv. rewrite Hv, Hs. reflexivity.
Qed.

Lemma main_step_raise_extract record updates tr url e :
  asset_link record = Ok url -> truthy url = true ->
  extract_video_id url = Raise e ->
  main_step record updates tr = (Raise e, tr).
Proof.
  intros Hu Ht He. unfold main_step, bind, lift.
  rewrite Hu, Ht. cbn [negb]. rewrite He. reflexivity.
Qed.

Lemma main_step_raise_lookup record updates tr url vid e tr' :
  asset_link record = Ok url -> truthy url = true ->
  extract_video_id url = Ok (Some vid) -> vid <> "" ->
  get_youtube_stats vid tr = (Raise e, tr') ->
  main_step record updates tr = (Raise e, tr').
Proof.
  intros Hu Ht He Hv Hs. unfold main_step, bind, lift.
  rewrite Hu, Ht. cbn [negb]. rewrite He.
  apply String.eqb_neq in Hv. rewrite Hv, Hs. reflexivity.
Qed.

Lemma main_step_raise_id record updates tr url vid v l c e tr' :
  asset_link record = Ok url -> truthy url = true ->
  extract_video_id url = Ok (Some vid) -> vid <> "" ->
  get_youtube_stats vid tr = (Ok (stats_dict v l c), tr') ->
  getitem_str record "id" = Raise e ->
  main_step record updates tr = (Raise e, tr').
Proof.
  intros Hu Ht He Hv Hs Hi. unfold main_step, bind, lift.
  rewrite Hu, Ht. cbn [negb]. rewrite He.
  apply String.eqb_neq in Hv. rewrite Hv, Hs. cbn [stats_dict truthy negb].
  unfold update_entry. rewrite Hi. reflexivity.
Qed.

Lemma main_step_appended record updates tr entry tr' :
  main_step record updates tr = (Ok (updates ++ [entry]), tr') ->
  exists url vid v l c id,
    asset_link record = Ok url /\ truthy url = true
    /\ extract_video_id url = Ok (Some vid) /\ vid <> ""
    /\ get_youtube_stats vid tr = (Ok (stats_dict v l c), tr')
    /\ getitem_str record "id" = Ok id
    /\ entry = entry_of id v l c.
Proof.
  intros H. unfold main_step, bind, lift in H.
  destruct (asset_link record) as [url|] eqn:Hu; [|discriminate].
  destruct (truthy url) eqn:Ht; cbn [negb] in H.
  2:{ injection H as H _. destruct (app_one_neq _ _ H). }
  destruct (extract_video_id url) as [[vid|]|] eqn:He; [| |discriminate].
  2:{ injection H as H _. destruct (app_one_neq _ _ H). }
  destruct (String.eqb vid "") eqn:Hv.
  { injection H as H _. destruct (app_one_neq _ _ H). }
  apply String.eqb_neq in Hv.
  destruct (get_youtube_stats vid tr) as [[stats|] tr1] eqn:Hs; [|discriminate].
  destruct (get_youtube_stats_shape _ _ _ _ Hs) as [-> | (v & l & c & ->)].
  { injection H as H _. destruct (app_one_neq _ _ H). }
  cbn [stats_dict truthy negb] in H. unfold update_entry in H.
  destruct (getitem_str record "id") as [id|] eqn:Hi; [|discriminate].
  cbn in H. injection H as H <-.
  apply app_inv_head in H. injection H as <-.
  exists url, vid, v, l, c, id. repeat split; assumption.
Qed.

(** C1 (amended).  For a record, the loop body appends an update entry
    (the record's id with the three counters) exactly when the URL field
    is truthy, the extractor returns a non-empty identifier, the lookup
    returns the counters and the record has an id.  A record whose URL is
    absent or empty, whose identifier is [None] or empty, or whose lookup
    returns [None] leaves the list as it is.  When the extractor or the
    lookup raises, or the id is missing, the exception leaves the loop
    body: the run ends with it. *)
Theorem main_step_entry_iff (record : value) (updates : list value)
  (tr : trace) :
  (forall entry tr',
     main_step record updates tr = (Ok (updates ++ [entry]), tr') <->
     exists url vid v l c id,
       asset_link record = Ok url /\ truthy url = true
       /\ extract_video_id url = Ok (Some vid) /\ vid <> ""
       /\ get_youtube_stats vid tr = (Ok (stats_dict v l c), tr')
       /\ getitem_str record "id" = Ok id
       /\ entry = entry_of id v l c)
  /\ (forall url,
        asset_link record = Ok url ->
        truthy url = false \/ extract_video_id url = Ok None
        \/ extract_video_id url = Ok (Some "") ->
        main_step record updates tr = (Ok updates, tr))
  /\ (forall url vid tr',
        asset_link record = Ok url -> truthy url = true ->
        extract_video_id url = Ok (Some vid) -> vid <> "" ->
        get_youtube_stats vid tr = (Ok PNone, tr') ->
        main_step record updates tr = (Ok updates, tr'))
  /\ (forall url e,
        asset_link record = Ok url -> truthy url = true ->
        extract_video_id url = Raise e ->
        main_step record updates tr = (Raise e, tr))
  /\ (forall url vid e tr',
        asset_link record = Ok url -> truthy url = true ->
        extract_video_id url = Ok (Some vid) -> vid <> "" ->
        get_youtube_stats vid tr = (Raise e, tr') ->
        main_step record updates tr = (Raise e, tr'))
  /\ (forall url vid v l c e tr',
        asset_link record = Ok url -> truthy url = true ->
        extract_video_id url = Ok (Some vid) -> vid <> "" ->
        get_youtube_stats vid tr = (Ok (stats_dict v l c), tr') ->
        getitem_str record "id" = Raise e ->
        main_step record updates tr = (Raise e, tr')).
Proof.
  split; [|split; [|split; [|split; [|split]]]].
  - intros entry tr'. split.
    + apply main_step_appended.
    + intros (url & vid & v & l & c & id & Hu & Ht & He & Hv & Hs & Hi & ->).
      eapply main_step_append; eassumption.
  - apply main_step_skip_early.
  - apply main_step_skip_lookup.
  - apply main_step_raise_extract.
  - apply main_step_raise_lookup.
  - apply main_step_raise_id.
Qed.

(** A raising loop body ends [main_loop], whatever records follow. *)
Lemma main_loop_raise record rest updates tr e tr' :
  main_step record updates tr = (Raise e, tr') ->
  main_loop (record :: rest) updates tr = (Raise e, tr').
Proof. intros H. cbn [main_loop]. apply bind_raise. exact H. Qed.

(** *** More on extract_video_id *)

Lemma lstrip_decompose c s :
  exists a, s = (a ++ lstrip (String c "") s)%string /\ all_char c a = true.
Proof.
  induction s as [|x t IH].
  - exists "". split; reflexivity.
  - cbn [lstrip mem_char]. rewrite orb_false_r.
    destruct (Ascii.eqb c x) eqn:E.
    + destruct IH as (a & Ha & Hall). exists (String x a). split.
      * cbn [String.append]. rewrite <- Ha. reflexivity.
      * cbn [all_char forallb_str]. rewrite Ascii.eqb_sym, E. exact Hall.
    + exists "". split; reflexivity.
Qed.

Lemma rstrip_decompose c s :
  exists b, s = (rstrip (String c "") s ++ b)%string /\ all_char c b = true.
Proof.
  induction s as [|x t IH].
  - exists "". split; reflexivity.
  - destruct IH as (b & Hb & Hall). cbn [rstrip mem_char].
    rewrite orb_false_r.
    destruct (rstrip (String c "") t) as [|y r] eqn:Er.
    + destruct (Ascii.eqb c x) eqn:E.
      * exists (String x b). split.
        -- cbn [String.append] in *. rewrite <- Hb. reflexivity.
        -- cbn [all_char forallb_str]. rewrite Ascii.eqb_sym, E. exact Hall.
      * exists b. split; [|exact Hall].
        cbn [String.append] in *. rewrite <- Hb. reflexivity.
    + exists b. split; [|exact Hall].
      cbn [String.append] in *. rewrite <- Hb. reflexivity.
Qed.

Lemma lstrip_head c s :
  startswith (String c "") (lstrip (String c "") s) = false.
Proof.
  induction s as [|x t IH]; [reflexivity|].
  cbn [lstrip mem_char]. rewrite orb_false_r.
  destruct (Ascii.eqb c x) eqn:E; [exact IH|].
  cbn [startswith]. rewrite E. reflexivity.
Qed.

Lemma rstrip_head c s :
  startswith (String c "") s = false ->
  startswith (String c "") (rstrip (String c "") s) = false.
Proof.
  destruct s as [|x t]; [reflexivity|].
  cbn [startswith]. rewrite andb_true_r. intros E.
  cbn [rstrip mem_char]. rewrite orb_false_r, E.
  destruct (rstrip (String c "") t); cbn [startswith]; rewrite E; reflexivity.
Qed.

Lemma rstrip_last c s : ends_with c (rstrip (String c "") s) = false.
Proof.
  induction s as [|x t IH]; [reflexivity|].
  cbn [rstrip mem_char]. rewrite orb_false_r.
  destruct (rstrip (String c "") t) as [|y r] eqn:Er.
  - destruct (Ascii.eqb c x) eqn:E; [reflexivity|].
    cbn [ends_with]. rewrite Ascii.eqb_sym. exact E.
  - exact IH.
Qed.

(** What [s.strip(c)] returns: [s] is the result between two runs of [c],
    and the result neither starts nor ends with [c]. *)
Lemma strip_decompose c s :
  (exists a b, s = (a ++ strip (String c "") s ++ b)%string
               /\ all_char c a = true /\ all_char c b = true)
  /\ startswith (String c "") (strip (String c "") s) = false
  /\ ends_with c (strip (String c "") s) = false.
Proof.
  unfold strip. split; [|split].
  - destruct (lstrip_decompose c s) as (a & Ha & Hall).
    destruct (rstrip_decompose c (lstrip (String c "") s)) as (b & Hb & Hbll).
    exists a, b. split; [|split; assumption].
    rewrite <- Hb. exact Ha.
  - apply rstrip_head, lstrip_head.
  - apply rstrip_last.
Qed.

Lemma extract_parsed s p :
  urlparse bracketed_netloc_ok nfkc_netloc_ok s = Ok p ->
  s <> "" ->
  extract_video_id (PStr s)
  = if contains "youtu.be" (netloc p) then Ok (Some (strip "/" (path p)))
    else if contains "youtube.com" (netloc p) && startswith "/live/" (path p)
    then Ok (Some (first_str (split "/" (last_str (split "/live/" (path p))))))
    else if contains "youtube.com" (netloc p)
    then match qs_get "v" (parse_qs unquote (query p)) with
         | Some (v :: _) => Ok (Some v)
         | Some [] => Raise IndexError
         | None => Ok None
         end
    else Ok None.
Proof.
  intros Hp Hs. unfold extract_video_id.
  destruct s as [|a t]; [congruence|]. cbn [truthy String.eqb negb].
  unfold extract_from_str. rewrite Hp. reflexivity.
Qed.

Lemma urlparse_empty :
  urlparse bracketed_netloc_ok nfkc_netloc_ok ""
  = Ok {| scheme := ""; netloc := ""; path := ""; params := ""; query := "";
          fragment := "" |}.
Proof. reflexivity. Qed.

(** X3.  A short link gives its path without the slashes around it: the path is
    the identifier between two runs of slashes, and the identifier neither
    starts nor ends with a slash (it may hold slashes inside, and may be
    empty). *)
Theorem extract_short_link_strips_slashes (s : string) (p : ParseResult) :
  urlparse bracketed_netloc_ok nfkc_netloc_ok s = Ok p ->
  contains "youtu.be" (netloc p) = true ->
  exists id a b,
    extract_video_id (PStr s) = Ok (Some id)
    /\ path p = (a ++ id ++ b)%string
    /\ all_char "/" a = true /\ all_char "/" b = true
    /\ startswith "/" id = false
    /\ ends_with "/" id = false.
Proof.
  intros Hp Hs.
  assert (Hne : s <> "").
  { intros ->. rewrite urlparse_empty in Hp. injection Hp as <-.
    discriminate Hs. }
  rewrite (extract_parsed s p Hp Hne), Hs.
  destruct (strip_decompose "/" (path p)) as ((a & b & Hab & Ha & Hb) & H1 & H2).
  exists (strip "/" (path p)), a, b. repeat split; assumption.
Qed.

Lemma split_aux_nonempty sep s k : split_aux sep s k <> [].
Proof.
  revert k. induction s as [|a t IH]; intros k; [discriminate|].
  cbn [split_aux]. destruct k; [|apply IH].
  destruct (startswith sep (String a t)); [discriminate|].
  specialize (IH 0). destruct (split_aux sep t 0); [congruence|discriminate].
Qed.

Lemma first_segment_no_slash s :
  mem_char "/" (first_str (split "/" s)) = false.
Proof.
  unfold split. induction s as [|a t IH]; [reflexivity|].
  cbn [split_aux startswith]. rewrite andb_true_r.
  destruct (Ascii.eqb "/" a) eqn:E; [reflexivity|].
  pose proof (split_aux_nonempty "/" t 0) as Hn.
  destruct (split_aux "/" t 0) as [|h r]; [congruence|].
  cbn [cons_head first_str hd mem_char] in *.
  rewrite Ascii.eqb_sym, E. exact IH.
Qed.

(** X4.  On a main-domain URL whose path starts with ["/live/"], the extractor
    always returns an identifier, and the identifier holds no slash. *)
Theorem extract_live_id_has_no_slash (s : string) (p : ParseResult) :
  urlparse bracketed_netloc_ok nfkc_netloc_ok s = Ok p ->
  contains "youtu.be" (netloc p) = false ->
  contains "youtube.com" (netloc p) = true ->
  startswith "/live/" (path p) = true ->
  exists id,
    extract_video_id (PStr s) = Ok (Some id) /\ mem_char "/" id = false.
Proof.
  intros Hp Hs Hm Hl.
  assert (Hne : s <> "").
  { intros ->. rewrite urlparse_empty in Hp. injection Hp as <-.
    discriminate Hm. }
  rewrite (extract_parsed s p Hp Hne), Hs, Hm, Hl. cbn [andb].
  eexists. split; [reflexivity|]. apply first_segment_no_slash.
Qed.

Lemma alnum_code a : is_alnum a = true -> 48 <= nat_of_ascii a.
Proof.
  unfold is_alnum, is_lower, is_upper, is_digit. intros H.
  repeat (apply orb_true_iff in H as [H | H]);
    apply andb_true_iff in H as [H _]; apply Nat.leb_le in H; lia.
Qed.

Lemma alnum_neq a c :
  is_alnum a = true -> is_alnum c = false -> Ascii.eqb a c = false.
Proof.
  intros Ha Hc. destruct (Ascii.eqb a c) eqn:E; [|reflexivity].
  apply Ascii.eqb_eq in E. subst c. congruence.
Qed.

Lemma mem_char_remove_char c d s :
  mem_char c s = false -> mem_char c (remove_char d s) = false.
Proof.
  induction s as [|a t IH]; [reflexivity|]. cbn [mem_char remove_char].
  intros H. apply orb_false_iff in H as [Ha Ht].
  destruct (Ascii.eqb a d); [exact (IH Ht)|].
  cbn [mem_char]. rewrite Ha, (IH Ht). reflexivity.
Qed.

(** A URL with no ["//"] after its scheme has an empty netloc. *)
Lemma urlparse_no_authority a t :
  is_alnum a = true -> mem_char ":" t = false ->
  exists p,
    urlparse bracketed_netloc_ok nfkc_netloc_ok (String a t) = Ok p
    /\ netloc p = "".
Proof.
  intros Ha Ht. unfold urlparse, urlsplit.
  cbn [lstrip_c0].
  assert (H32 : Nat.leb (nat_of_ascii a) 32 = false).
  { apply Nat.leb_gt. apply alnum_code in Ha. lia. }
  rewrite H32. unfold remove_unsafe. cbn [remove_char].
  rewrite (alnum_neq a TAB Ha) by reflexivity. cbn [remove_char].
  rewrite (alnum_neq a CR Ha) by reflexivity. cbn [remove_char].
  rewrite (alnum_neq a LF Ha) by reflexivity.
  set (t' := remove_char LF (remove_char CR (remove_char TAB t))).
  assert (Ht' : mem_char ":" (String a t') = false).
  { cbn [mem_char]. rewrite (alnum_neq a ":" Ha) by reflexivity.
    unfold t'. repeat apply mem_char_remove_char. exact Ht. }
  unfold split_scheme. rewrite (find_absent _ _ Ht').
  unfold split_netloc.
  assert (Hsl : String.eqb (take 2 (String a t')) "//" = false).
  { apply String.eqb_neq. cbn [take]. intros [= E _].
    pose proof (alnum_neq a "/" Ha eq_refl) as Hn.
    rewrite E in Hn. discriminate Hn. }
  rewrite Hsl. cbn [rbind].
  destruct (split_once "#" (String a t')) as [[u f]|];
    match goal with
    | |- context [split_once "?" ?x] =>
        destruct (split_once "?" x) as [[u' q]|]
    end;
    cbn [_checknetloc String.eqb orb rbind scheme path existsb uses_params];
    match goal with
    | |- context [if ?b then _ else _] => destruct b
    end;
    try match goal with
        | |- context [_splitparams ?x] => destruct (_splitparams x)
        end;
    eexists; split; reflexivity.
Qed.

(** X5.  A link written without its scheme ([youtu.be/<id>],
    [www.youtube.com/watch?v=<id>]) has no netloc for [urlparse]: the
    extractor returns [None], whatever the host it names. *)
Theorem extract_none_without_scheme (a : ascii) (t : string) :
  is_alnum a = true ->
  mem_char ":" t = false ->
  extract_video_id (PStr (String a t)) = Ok None.
Proof.
  intros Ha Ht.
  destruct (urlparse_no_authority a t Ha Ht) as (p & Hp & Hn).
  rewrite (extract_parsed _ p Hp) by discriminate.
  rewrite Hn. reflexivity.
Qed.

Lemma qs_get_dict_append k n v d :
  qs_get k (dict_append n v d)
  = if String.eqb k n
    then Some (match qs_get k d with Some vs => vs ++ [v] | None => [v] end)
    else qs_get k d.
Proof.
  induction d as [|[k' vs] d IH]; cbn [dict_append qs_get].
  - destruct (String.eqb k n); reflexivity.
  - destruct (String.eqb k' n) eqn:E1; cbn [qs_get].
    + apply String.eqb_eq in E1. subst k'.
      destruct (String.eqb k n); reflexivity.
    + destruct (String.eqb k k') eqn:E2.
      * apply String.eqb_eq in E2. subst k'.
        rewrite E1. reflexivity.
      * exact IH.
Qed.

Lemma qs_get_fold k pairs d :
  qs_get k (fold_left (fun d '(n, v) => dict_append n v d) pairs d)
  = match qs_get k d, values_named k pairs with
    | Some vs, vals => Some (vs ++ vals)
    | None, [] => None
    | None, vals => Some vals
    end.
Proof.
  revert d. induction pairs as [|[n v] pairs IH]; intros d.
  - cbn. destruct (qs_get k d); [rewrite app_nil_r|]; reflexivity.
  - cbn [fold_left]. rewrite IH, qs_get_dict_append.
    unfold values_named. cbn [filter fst]. rewrite (String.eqb_sym n k).
    destruct (String.eqb k n); cbn [map snd].
    + destruct (qs_get k d) as [vs|].
      * rewrite <- app_assoc. reflexivity.
      * reflexivity.
    + reflexivity.
Qed.

Lemma qs_get_parse_qs k qs :
  qs_get k (parse_qs unquote qs)
  = match values_named k (parse_qsl unquote qs) with
    | [] => None
    | vals => Some vals
    end.
Proof. unfold parse_qs. rewrite qs_get_fold. reflexivity. Qed.

(** X2.  On a main-domain URL whose path does not start with ["/live/"], the
    extractor returns the value of the first [v] parameter that [parse_qsl]
    keeps (parameters with a blank value are dropped), and [None] when
    there is none: later [v] parameters are ignored. *)
Theorem extract_first_v_parameter (s : string) (p : ParseResult) :
  urlparse bracketed_netloc_ok nfkc_netloc_ok s = Ok p ->
  contains "youtu.be" (netloc p) = false ->
  contains "youtube.com" (netloc p) = true ->
  startswith "/live/" (path p) = false ->
  extract_video_id (PStr s)
  = Ok (hd_error (values_named "v" (parse_qsl unquote (query p)))).
Proof.
  intros Hp Hs Hm Hl.
  assert (Hne : s <> "").
  { intros ->. rewrite urlparse_empty in Hp. injection Hp as <-.
    discriminate Hm. }
  rewrite (extract_parsed s p Hp Hne), Hs, Hm, Hl. cbn [andb].
  rewrite qs_get_parse_qs.
  destruct (values_named "v" (parse_qsl unquote (query p))); reflexivity.
Qed.

Lemma splitnetloc_host_any h r :
  mem_char "/" h = false -> mem_char "?" h = false -> mem_char "#" h = false ->
  _splitnetloc ("//" ++ h ++ String "/" r) 2 = (h, String "/" r).
Proof.
  intros H1 H2 H3. unfold _splitnetloc, find_from.
  change (drop 2 ("//" ++ h ++ String "/" r)%string) with (h ++ String "/" r)%string.
  cbn [fold_left].
  rewrite (find_app_absent _ _ _ H1), (find_app_absent _ _ _ H2),
    (find_app_absent _ _ _ H3).
  cbn [find]. change (Ascii.eqb "/" "/") with true.
  change (Ascii.eqb "/" "?") with false. change (Ascii.eqb "/" "#") with false.
  change (String.length ("//" ++ h ++ String "/" r)%string)
    with (2 + String.length (h ++ String "/" r)%string).
  rewrite str_length_app. cbn [String.length option_map].
  rewrite (Nat.min_r _ (2 + (String.length h + 0))) by lia.
  assert (Hd : forall c,
             match option_map (fun i => 2 + i)
                     (option_map (Nat.add (String.length h))
                        (option_map S (find c r))) with
             | Some w => Nat.min (2 + (String.length h + 0)) w
             | None => 2 + (String.length h + 0)
             end = 2 + (String.length h + 0)).
  { intros c. destruct (find c r); cbn [option_map]; [|reflexivity].
    apply Nat.min_l. lia. }
  rewrite (Hd "?"%char), (Hd "#"%char).
  replace (2 + (String.length h + 0) - 2) with (String.length h) by lia.
  replace (2 + (String.length h + 0)) with (S (S (String.length h))) by lia.
  cbn [String.append drop]. rewrite take_app, drop_app. reflexivity.
Qed.

Lemma split_once_app c p q :
  mem_char c p = false -> split_once c (p ++ String c q) = Some (p, q).
Proof.
  induction p as [|a t IH]; intros H.
  - cbn [String.append split_once]. rewrite Ascii.eqb_refl. reflexivity.
  - cbn [mem_char] in H. apply orb_false_iff in H as [Ha Ht].
    cbn [String.append split_once]. rewrite Ha, (IH Ht). reflexivity.
Qed.

Lemma plain_query_absent q c :
  plain_query q = true ->
  (Ascii.eqb c "#" || Ascii.eqb c TAB || Ascii.eqb c CR || Ascii.eqb c LF)
  = true ->
  mem_char c q = false.
Proof.
  intros H Hc. induction q as [|a t IH]; [reflexivity|].
  cbn [plain_query forallb_str mem_char] in *.
  apply andb_true_iff in H as [Ha Ht]. rewrite (IH Ht), orb_false_r.
  destruct (Ascii.eqb a c) eqn:E; [|reflexivity].
  apply Ascii.eqb_eq in E. subst a. rewrite Hc in Ha. discriminate.
Qed.

(** [urlparse] on [https://<host>/<path>?<query>]. *)
Lemma urlparse_https_query h p q :
  plain_host h = true -> plain_path p = true -> plain_query q = true ->
  urlparse bracketed_netloc_ok nfkc_netloc_ok
    ("https://" ++ h ++ String "/" (p ++ String "?" q))
  = Ok {| scheme := "https"; netloc := h; path := String "/" p;
          params := ""; query := q; fragment := "" |}.
Proof.
  intros Hh Hp Hq. unfold plain_host in Hh.
  repeat (apply andb_true_iff in Hh as [Hh ?]).
  repeat match goal with
         | H : negb _ = true |- _ => apply negb_true_iff in H
         end.
  assert (Hall : forall c,
             (Ascii.eqb c "#" || Ascii.eqb c TAB || Ascii.eqb c CR
              || Ascii.eqb c LF) = true ->
             ends_path c = true ->
             Ascii.eqb "/" c = false -> Ascii.eqb "?" c = false ->
             mem_char c (h ++ String "/" (p ++ String "?" q)) = false
             /\ mem_char c (String "/" (p ++ String "?" q)) = false).
  { intros c Hc He Hc1 Hc2.
    assert (Hr : mem_char c (String "/" (p ++ String "?" q)) = false).
    { cbn [mem_char]. rewrite Hc1, mem_char_app. cbn [mem_char].
      rewrite Hc2, (plain_path_absent _ _ Hp He), (plain_query_absent _ _ Hq Hc).
      reflexivity. }
    split; [|exact Hr].
    rewrite mem_char_app, (plain_path_absent _ _ Hh He), Hr. reflexivity. }
  unfold urlparse, urlsplit.
  change (lstrip_c0 ("https://" ++ h ++ String "/" (p ++ String "?" q))%string)
    with ("https://" ++ h ++ String "/" (p ++ String "?" q))%string.
  rewrite remove_unsafe_clean.
  2-4: match goal with
       | |- mem_char ?c _ = false =>
           change ("https://" ++ h ++ String "/" (p ++ String "?" q))%string
             with ("https://" ++ (h ++ String "/" (p ++ String "?" q)))%string;
           rewrite mem_char_app;
           rewrite (proj1 (Hall c eq_refl eq_refl eq_refl eq_refl));
           reflexivity
       end.
  change (split_scheme ("https://" ++ h ++ String "/" (p ++ String "?" q))%string)
    with ("https", ("//" ++ h ++ String "/" (p ++ String "?" q))%string).
  cbv beta iota. unfold split_netloc.
  change (take 2 ("//" ++ h ++ String "/" (p ++ String "?" q))%string) with "//".
  change (String.eqb "//" "//") with true. cbv iota.
  rewrite splitnetloc_host_any; try assumption;
    try (apply (plain_path_absent _ _ Hh); reflexivity).
  match goal with
  | H : mem_char "[" h = false |- _ => rewrite H
  end.
  match goal with
  | H : mem_char "]" h = false |- _ => rewrite H
  end.
  cbn [andb orb negb rbind].
  rewrite (split_once_absent _ _
             (proj2 (Hall "#"%char eq_refl eq_refl eq_refl eq_refl))).
  change (String "/" (p ++ String "?" q)) with (String "/" p ++ String "?" q)%string.
  rewrite split_once_app.
  2:{ cbn [mem_char]. change (Ascii.eqb "/" "?") with false.
      apply (plain_path_absent _ _ Hp). reflexivity. }
  unfold _checknetloc.
  match goal with
  | H : isascii h = true |- _ => rewrite H
  end.
  rewrite orb_true_r. cbn [rbind scheme path].
  assert (Hsemi : mem_char ";" (String "/" p) = false).
  { cbn [mem_char]. change (Ascii.eqb "/" ";") with false.
    apply (plain_path_absent _ _ Hp). reflexivity. }
  rewrite Hsemi, andb_false_r. reflexivity.
Qed.

Lemma split_char_app c s r :
  mem_char c s = false ->
  split (String c "") (s ++ String c r) = s :: split (String c "") r.
Proof.
  unfold split. induction s as [|a t IH]; intros H.
  - cbn [String.append split_aux startswith String.length Nat.sub].
    rewrite Ascii.eqb_refl. reflexivity.
  - cbn [mem_char] in H. apply orb_false_iff in H as [Ha Ht].
    cbn [String.append split_aux startswith].
    rewrite Ascii.eqb_sym, Ha, (IH Ht). reflexivity.
Qed.

Lemma split_char_absent c s :
  mem_char c s = false -> split (String c "") s = [s].
Proof.
  unfold split. induction s as [|a t IH]; intros H; [reflexivity|].
  cbn [mem_char] in H. apply orb_false_iff in H as [Ha Ht].
  cbn [split_aux startswith]. rewrite Ascii.eqb_sym, Ha, (IH Ht). reflexivity.
Qed.

Lemma plain_value_facts v :
  plain_value v = true ->
  v <> "" /\ mem_char "&" v = false /\ mem_char "%" v = false
  /\ plain_query v = true.
Proof.
  unfold plain_value. intros H. apply andb_true_iff in H as [Hne H].
  split; [apply String.eqb_neq, negb_true_iff; exact Hne|].
  induction v as [|a t IH]; [repeat split|].
  cbn [forallb_str] in H. apply andb_true_iff in H as [Ha Ht].
  apply negb_true_iff in Ha.
  repeat (apply orb_false_iff in Ha as [Ha ?]).
  assert (IH' : mem_char "&" t = false /\ mem_char "%" t = false
                /\ plain_query t = true).
  { destruct t as [|b t']; [repeat split|]. apply IH; [reflexivity|exact Ht]. }
  destruct IH' as (I1 & I2 & I3).
  cbn [mem_char plain_query forallb_str].
  repeat split.
  - rewrite Ha, I1. reflexivity.
  - match goal with E : Ascii.eqb a "%" = false |- _ => rewrite E end.
    exact I2.
  - unfold plain_query in I3. rewrite I3, andb_true_r.
    apply negb_true_iff.
    repeat match goal with E : Ascii.eqb a _ = false |- _ =>
             rewrite E; clear E end.
    reflexivity.
Qed.

Lemma plain_query_app p q :
  plain_query (p ++ q) = plain_query p && plain_query q.
Proof.
  induction p as [|a t IH]; [reflexivity|].
  cbn [String.append plain_query forallb_str] in *.
  unfold plain_query in IH. rewrite IH. apply andb_assoc.
Qed.

Lemma mem_char_replace_char c a b s :
  mem_char c s = false -> Ascii.eqb b c = false ->
  mem_char c (replace_char a b s) = false.
Proof.
  intros H Hb. induction s as [|x t IH]; [reflexivity|].
  cbn [mem_char replace_char] in *.
  apply orb_false_iff in H as [Hx Ht]. rewrite (IH Ht), orb_false_r.
  destruct (Ascii.eqb x a); assumption.
Qed.

Lemma replace_char_absent a b s :
  mem_char a s = false -> replace_char a b s = s.
Proof.
  induction s as [|x t IH]; [reflexivity|]. cbn [mem_char replace_char].
  intros H. apply orb_false_iff in H as [Hx Ht]. rewrite Hx, (IH Ht).
  reflexivity.
Qed.

(** The first pair that [parse_qsl] decodes from [v=<id>...]. *)
Lemma parse_qsl_v id tail :
  (forall s, mem_char "%" s = false -> unquote s = s) ->
  plain_value id = true ->
  tail = "" \/ startswith "&" tail = true ->
  exists rest,
    parse_qsl unquote ("v=" ++ id ++ tail)
    = ("v", replace_char "+" " " id) :: rest.
Proof.
  intros Hunq Hid Htail.
  destruct (plain_value_facts id Hid) as (Hne & Hamp & Hpct & _).
  assert (Hsplit : exists l, split "&" ("v=" ++ id ++ tail)
                             = ("v=" ++ id)%string :: l).
  { assert (Hv : mem_char "&" ("v=" ++ id) = false)
      by (cbn [String.append mem_char]; exact Hamp).
    destruct Htail as [-> | Ht].
    - exists []. rewrite (split_char_absent "&" ("v=" ++ id ++ "")).
      + replace (id ++ "")%string with id; [reflexivity|].
        clear. induction id as [|a t IH]; [reflexivity|].
        cbn [String.append]. rewrite <- IH. reflexivity.
      + replace (id ++ "")%string with id; [exact Hv|].
        clear. induction id as [|a t IH]; [reflexivity|].
        cbn [String.append]. rewrite <- IH. reflexivity.
    - destruct tail as [|a r]; [discriminate|].
      cbn [startswith] in Ht. rewrite andb_true_r in Ht.
      apply Ascii.eqb_eq in Ht. subst a.
      exists (split "&" r).
      replace ("v=" ++ id ++ String "&" r)%string
        with (("v=" ++ id) ++ String "&" r)%string.
      + apply split_char_app. exact Hv.
      + cbn [String.append]. reflexivity. }
  destruct Hsplit as (l & Hl).
  unfold parse_qsl.
  change (String.eqb ("v=" ++ id ++ tail) "") with false. cbv iota.
  rewrite Hl. cbn [flat_map].
  change (String.eqb ("v=" ++ id) "") with false. cbv iota.
  change (split_once "=" ("v=" ++ id)) with (Some ("v", id)). cbv iota beta.
  apply String.eqb_neq in Hne. rewrite Hne.
  change (replace_char "+" " " "v") with "v".
  rewrite (Hunq "v" eq_refl).
  rewrite (Hunq (replace_char "+" " " id))
    by (apply mem_char_replace_char; [exact Hpct | reflexivity]).
  eexists. reflexivity.
Qed.

(** X1.  The form [https://<maindomain>/watch?v=<id>] and
    [https://<maindomain>/watch?v=<id>&...]: the extractor returns
    [<id>], with each ["+"] of it turned into a space. *)
Theorem extract_watch_parameter (h id tail : string) :
  (forall s, mem_char "%" s = false -> unquote s = s) ->
  plain_host h = true ->
  contains "youtu.be" h = false ->
  contains "youtube.com" h = true ->
  plain_value id = true ->
  plain_query tail = true ->
  tail = "" \/ startswith "&" tail = true ->
  extract_video_id (PStr ("https://" ++ h ++ "/watch?v=" ++ id ++ tail))
  = Ok (Some (replace_char "+" " " id))
  /\ (mem_char "+" id = false -> replace_char "+" " " id = id).
Proof.
  intros Hunq Hh Hs Hm Hid Hq Htail.
  split; [|apply replace_char_absent].
  destruct (plain_value_facts id Hid) as (_ & _ & _ & Hidq).
  assert (Hp : urlparse bracketed_netloc_ok nfkc_netloc_ok
                 ("https://" ++ h ++ "/watch?v=" ++ id ++ tail)
               = Ok {| scheme := "https"; netloc := h; path := "/watch";
                       params := ""; query := "v=" ++ id ++ tail;
                       fragment := "" |}).
  { change ("https://" ++ h ++ "/watch?v=" ++ id ++ tail)%string
      with ("https://" ++ h
            ++ String "/" ("watch" ++ String "?" ("v=" ++ id ++ tail)))%string.
    apply urlparse_https_query; [exact Hh | reflexivity |].
    change ("v=" ++ id ++ tail)%string with ("v=" ++ (id ++ tail))%string.
    rewrite plain_query_app, plain_query_app, Hidq, Hq. reflexivity. }
  rewrite (extract_parsed _ _ Hp).
  2:{ destruct h; discriminate. }
  cbn [netloc path query]. rewrite Hs, Hm.
  change (startswith "/live/" "/watch") with false. cbn [andb].
  rewrite qs_get_parse_qs.
  destruct (parse_qsl_v id tail Hunq Hid Htail) as (rest & ->).
  unfold values_named. cbn [filter fst]. change (String.eqb "v" "v") with true.
  cbv iota. reflexivity.
Qed.

(** *** More on get_youtube_stats *)

Lemma get_youtube_stats_trace video_id tr :
  snd (get_youtube_stats video_id tr)
  = tr ++ [EvGet (stats_url video_id) [] []].
Proof.
  unfold get_youtube_stats, bind, requests_get, lift, ret.
  destruct (network (tr ++ [EvGet (stats_url video_id) [] []])) as [resp|];
    [|reflexivity].
  destruct (negb (Z.eqb (status_code resp) 200)); reflexivity.
Qed.

(** X7.  A lookup issues exactly one GET, whatever comes back (no retry), and a
    transport exception of that request is the outcome of the lookup. *)
Theorem lookup_issues_one_request (video_id : string) (tr : trace) :
  snd (get_youtube_stats video_id tr)
  = tr ++ [EvGet (stats_url video_id) [] []]
  /\ (forall e,
        network (tr ++ [EvGet (stats_url video_id) [] []]) = Raise e ->
        fst (get_youtube_stats video_id tr) = Raise e).
Proof.
  split.
  - apply get_youtube_stats_trace.
  - intros e H. rewrite (get_youtube_stats_transport _ _ _ H). reflexivity.
Qed.

(** X8.  What a lookup returns is [None] or a dict of exactly the three integer
    counters, never a partial dict; it is truthy exactly in the second
    case. *)
Theorem lookup_result_shape (video_id : string) (tr tr' : trace) (r : value) :
  get_youtube_stats video_id tr = (Ok r, tr') ->
  (r = PNone /\ truthy r = false)
  \/ (exists v l c, r = stats_dict v l c /\ truthy r = true).
Proof.
  intros H. destruct (get_youtube_stats_shape _ _ _ _ H) as [-> | (v & l & c & ->)].
  - left. split; reflexivity.
  - right. exists v, l, c. split; reflexivity.
Qed.

(** X9.  On a 200 response with a non-empty [items] array, the first item must
    be an object with a [statistics] object: without the key the lookup
    raises KeyError, with a first item that is not an object TypeError,
    and with a [statistics] that is not an object AttributeError. *)
Theorem lookup_raises_on_malformed_item
  (video_id : string) (tr : trace) (resp : response)
  (kv : list (string * value)) (item : value) (rest : list value) :
  network (tr ++ [EvGet (stats_url video_id) [] []]) = Ok resp ->
  status_code resp = 200%Z ->
  json resp = Ok (PDict kv) ->
  dict_get "items" kv = Some (PList (item :: rest)) ->
  (forall ikv,
     item = PDict ikv -> dict_get "statistics" ikv = None ->
     get_youtube_stats video_id tr
     = (Raise KeyError, tr ++ [EvGet (stats_url video_id) [] []]))
  /\ ((forall ikv, item <> PDict ikv) ->
      get_youtube_stats video_id tr
      = (Raise TypeError, tr ++ [EvGet (stats_url video_id) [] []]))
  /\ (forall ikv st,
        item = PDict ikv -> dict_get "statistics" ikv = Some st ->
        (forall skv, st <> PDict skv) ->
        get_youtube_stats video_id tr
        = (Raise AttributeError, tr ++ [EvGet (stats_url video_id) [] []])).
Proof.
  intros Hnet Hs Hj Hi.
  rewrite (get_youtube_stats_response _ _ _ Hnet), Hs, Hj.
  cbn [Z.eqb Pos.eqb negb rbind].
  unfold stats_of_data, py_in, getitem_str. rewrite Hi. cbn [rbind truthy getitem_0].
  split; [|split].
  - intros ikv -> Hst. rewrite Hst. reflexivity.
  - intros Hn. destruct item; try reflexivity. destruct (Hn kv0 eq_refl).
  - intros ikv st -> Hst Hn. rewrite Hst. cbn [rbind get_default].
    destruct st; try reflexivity. destruct (Hn kv0 eq_refl).
Qed.

(** *** More on get_airtable_records *)



Lemma fetch_params_first :
  fetch_params PNone
  = [("pageSize", PInt 100); ("view", PStr AIRTABLE_VIEW_NAME)].
Proof. reflexivity. Qed.

Lemma fetch_params_next c :
  truthy c = true ->
  fetch_params c
  = [("pageSize", PInt 100); ("view", PStr AIRTABLE_VIEW_NAME); ("offset", c)].
Proof. intros H. unfold fetch_params. rewrite H. reflexivity. Qed.

(** X11.  Against a server that answers with a sequence of pages, each one with a
    truthy cursor but the last, the fetcher returns the records of all
    pages in arrival order, after exactly one request per page; every
    request asks for 100 rows of the view, the first one with no [offset]
    and each later one with the cursor of the page before. *)
Theorem fetcher_follows_cursors
  (fuel : nat) (offset : value) (all_records : list value) (tr : trace)
  (pages : list (list value * value)) (final : list value) :
  pages_served tr offset pages final ->
  List.length pages < fuel ->
  fetch_loop fuel offset all_records tr
  = (Ok (Some (all_records ++ concat (map fst pages) ++ final)),
     tr ++ fetch_events offset pages)
  /\ List.length (fetch_events offset pages) = S (List.length pages)
  /\ fetch_params PNone
     = [("pageSize", PInt 100); ("view", PStr AIRTABLE_VIEW_NAME)]
  /\ Forall (fun page : list value * value =>
               fetch_params (snd page)
               = [("pageSize", PInt 100); ("view", PStr AIRTABLE_VIEW_NAME);
                  ("offset", snd page)]
               /\ In (fetch_event (snd page)) (fetch_events offset pages))
            pages.
Proof.
  intros Hs Hf.
  assert (Hrun : fetch_loop fuel offset all_records tr
                 = (Ok (Some (all_records ++ concat (map fst pages) ++ final)),
                    tr ++ fetch_events offset pages)).
  { revert fuel offset all_records tr Hs Hf.
    induction pages as [|[recs cursor] rest IH];
      intros fuel offset all_records tr Hs Hf.
    - destruct fuel as [|fuel]; [cbn in Hf; lia|].
      destruct Hs as (resp & kv & Hnet & Hj & Hr & Hc).
      rewrite (fetch_loop_page fuel offset all_records tr resp (PDict kv) final
                 (match dict_get "offset" kv with Some c => c | None => PNone end)
                 Hnet Hj).
      + destruct (dict_get "offset" kv) as [c|]; [rewrite Hc|]; reflexivity.
      + unfold read_page, get_default. rewrite Hr. reflexivity.
    - destruct fuel as [|fuel]; [cbn in Hf; lia|].
      destruct Hs as (resp & kv & Hnet & Hj & Hr & Hc & Ht & Hrest).
      rewrite (fetch_loop_page fuel offset all_records tr resp (PDict kv) recs
                 cursor Hnet Hj).
      + rewrite Ht. cbn [negb].
        rewrite (IH fuel cursor (all_records ++ recs) (tr ++ [fetch_event offset])
                   Hrest ltac:(cbn in Hf; lia)).
        cbn [map fst concat fetch_events].
        rewrite <- !app_assoc. reflexivity.
      + unfold read_page, get_default. rewrite Hr, Hc. reflexivity. }
  split; [exact Hrun|]. split; [|split; [reflexivity|]].
  - clear. revert offset. induction pages as [|[recs cursor] rest IH];
      intros offset; [reflexivity|]. cbn [fetch_events List.length].
    rewrite IH. reflexivity.
  - clear Hrun Hf. revert tr offset Hs.
    induction pages as [|[recs cursor] rest IH]; intros tr offset Hs;
      [constructor|].
    destruct Hs as (resp & kv & Hnet & Hj & Hr & Hc & Ht & Hrest).
    constructor.
    + cbn [snd]. split; [apply fetch_params_next; exact Ht|].
      cbn [fetch_events]. right. destruct rest as [|[? ?] ?]; left; reflexivity.
    + specialize (IH _ _ Hrest).
      eapply Forall_impl; [|exact IH].
      intros page [H1 H2]. split; [exact H1|]. cbn [fetch_events]. right.
      exact H2.
Qed.

(** X12.  The loop has no bound of its own: against a server that puts a truthy
    cursor on every page, it has not returned after any number of
    requests. *)
Theorem fetcher_runs_while_cursor (fuel : nat) :
  (forall tr offset,
     exists resp kv recs c,
       network (tr ++ [fetch_event offset]) = Ok resp
       /\ json resp = Ok (PDict kv)
       /\ dict_get "records" kv = Some (PList recs)
       /\ dict_get "offset" kv = Some c
       /\ truthy c = true) ->
  forall offset all_records tr,
  exists tr',
    fetch_loop fuel offset all_records tr = (Ok None, tr')
    /\ List.length tr' = List.length tr + fuel
    /\ count_patches tr' = count_patches tr.
Proof.
  intros Hnet. induction fuel as [|fuel IH]; intros offset all_records tr.
  - exists tr. cbn. repeat split; lia.
  - destruct (Hnet tr offset) as (resp & kv & recs & c & Hn & Hj & Hr & Hc & Ht).
    rewrite (fetch_loop_page fuel offset all_records tr resp (PDict kv) recs c
               Hn Hj).
    + rewrite Ht. cbn [negb].
      destruct (IH c (all_records ++ recs) (tr ++ [fetch_event offset]))
        as (tr' & Hrun & Hlen & Hcnt).
      exists tr'. split; [exact Hrun|]. split.
      * rewrite Hlen, List.length_app. cbn. lia.
      * rewrite Hcnt. unfold count_patches. rewrite filter_app.
        cbn. rewrite app_nil_r. reflexivity.
    + unfold read_page, get_default. rewrite Hr, Hc. reflexivity.
Qed.

(** *** More on batch_update_airtable *)

Lemma for_each_patches_raise (l : list value) (idx : list nat) tr k e :
  let groups := map (fun i => slice l i (i + 10)) idx in
  k < List.length idx ->
  (forall j, j < k ->
     exists r, network (tr ++ flat_map patch_events (firstn j groups)
                          ++ [patch_request (nth j groups [])]) = Ok r) ->
  network (tr ++ flat_map patch_events (firstn k groups)
              ++ [patch_request (nth k groups [])]) = Raise e ->
  for_each idx
    (fun i =>
       requests_patch airtable_url patch_headers
         (PDict [("records", PList (slice l i (i + 10)))]) ;;
       time_sleep 250) tr
  = (Raise e,
     tr ++ flat_map patch_events (firstn k groups)
        ++ [patch_request (nth k groups [])]).
Proof.
  cbv zeta. revert tr k. induction idx as [|i idx IH]; intros tr k Hk Hok Hraise.
  - cbn in Hk. lia.
  - cbn [map] in *. destruct k as [|k].
    + cbn [firstn flat_map nth app] in *.
      cbn [for_each]. unfold bind at 1. unfold bind at 1.
      unfold requests_patch at 1. fold (patch_request (slice l i (i + 10))).
      rewrite Hraise. reflexivity.
    + cbn [for_each]. unfold bind at 1. unfold bind at 1.
      unfold requests_patch at 1. fold (patch_request (slice l i (i + 10))).
      destruct (Hok 0 ltac:(lia)) as [r Hr].
      cbn [firstn flat_map nth app] in Hr. rewrite Hr.
      unfold time_sleep at 1.
      replace ((tr ++ [patch_request (slice l i (i + 10))]) ++ [EvSleep 250])
        with (tr ++ patch_events (slice l i (i + 10)))
        by (unfold patch_events, patch_request; rewrite <- app_assoc;
            reflexivity).
      rewrite (IH (tr ++ patch_events (slice l i (i + 10))) k).
      * cbn [firstn flat_map nth]. rewrite <- !app_assoc. reflexivity.
      * cbn [List.length] in Hk. lia.
      * intros j Hj. destruct (Hok (S j) ltac:(lia)) as [r' Hr'].
        exists r'. rewrite <- Hr'. cbn [firstn flat_map nth].
        rewrite <- !app_assoc. reflexivity.
      * rewrite <- Hraise. cbn [firstn flat_map nth].
        rewrite <- !app_assoc. reflexivity.
Qed.

(** X13.  A PATCH that raises ends the Batch Writer at once: the groups before it
    were sent, each followed by its pause; the raising request is the last
    thing done, with no pause after it; the groups after it are never
    sent. *)
Theorem batch_writer_stops_at_raising_patch
  (l : list value) (tr : trace) (k : nat) (e : exn) :
  k < List.length (chunks l) ->
  (forall j, j < k ->
     exists r, network (tr ++ flat_map patch_events (firstn j (chunks l))
                          ++ [patch_request (nth j (chunks l) [])]) = Ok r) ->
  network (tr ++ flat_map patch_events (firstn k (chunks l))
              ++ [patch_request (nth k (chunks l) [])]) = Raise e ->
  batch_update_airtable l tr
  = (Raise e,
     tr ++ flat_map patch_events (firstn k (chunks l))
        ++ [patch_request (nth k (chunks l) [])])
  /\ count_patches (flat_map patch_events (firstn k (chunks l))
                    ++ [patch_request (nth k (chunks l) [])]) = S k
  /\ count_sleeps (flat_map patch_events (firstn k (chunks l))
                   ++ [patch_request (nth k (chunks l) [])]) = k.
Proof.
  intros Hk Hok Hraise.
  assert (Hc : chunks l
               = map (fun i => slice l i (i + 10))
                     (range_from (List.length l) 0 (List.length l) 10)).
  { rewrite range_slices. reflexivity. }
  split; [|split].
  - unfold batch_update_airtable, py_range.
    rewrite Hc in Hk, Hok, Hraise |- *. rewrite length_map in Hk.
    apply (for_each_patches_raise l _ tr k e Hk Hok Hraise).
  - unfold count_patches. rewrite filter_app, List.length_app.
    fold (count_patches (flat_map patch_events (firstn k (chunks l)))).
    rewrite count_patches_events, length_firstn. cbn. lia.
  - unfold count_sleeps. rewrite filter_app, List.length_app.
    fold (count_sleeps (flat_map patch_events (firstn k (chunks l)))).
    rewrite count_sleeps_events, length_firstn. cbn. lia.
Qed.

(** *** More on main *)

Lemma main_step_effect record updates tr res tr' :
  main_step record updates tr = (res, tr') ->
  (tr' = tr \/ exists vid, tr' = tr ++ [EvGet (stats_url vid) [] []])
  /\ (forall u',
        res = Ok u' ->
        u' = updates
        \/ exists id v l c,
             getitem_str record "id" = Ok id
             /\ u' = updates ++ [entry_of id v l c]).
Proof.
  intros H.
  destruct (asset_link record) as [url|e0] eqn:Hu.
  2:{ unfold main_step, bind, lift in H. rewrite Hu in H.
      injection H as <- <-. split; [left; reflexivity | discriminate]. }
  destruct (truthy url) eqn:Ht.
  2:{ rewrite (main_step_skip_early _ _ _ url Hu (or_introl Ht)) in H.
      injection H as <- <-. split; [left; reflexivity|].
      intros u' [= <-]. left. reflexivity. }
  destruct (extract_video_id url) as [[vid|]|e1] eqn:He.
  - destruct (String.eqb vid "") eqn:Hv.
    + apply String.eqb_eq in Hv. subst vid.
      rewrite (main_step_skip_early _ _ _ url Hu (or_intror (or_intror He)))
        in H.
      injection H as <- <-. split; [left; reflexivity|].
      intros u' [= <-]. left. reflexivity.
    + apply String.eqb_neq in Hv.
      pose proof (get_youtube_stats_trace vid tr) as Htr.
      destruct (get_youtube_stats vid tr) as [[stats|e2] tr1] eqn:Hs;
        cbn [snd] in Htr; subst tr1.
      * destruct (get_youtube_stats_shape _ _ _ _ Hs)
          as [-> | (v & l & c & ->)].
        -- rewrite (main_step_skip_lookup _ _ _ _ _ _ Hu Ht He Hv Hs) in H.
           injection H as <- <-. split; [right; eauto|].
           intros u' [= <-]. left. reflexivity.
        -- destruct (getitem_str record "id") as [id|e3] eqn:Hi.
           ++ rewrite (main_step_append _ _ _ _ _ _ _ _ _ _ Hu Ht He Hv Hs Hi)
                in H.
              injection H as <- <-. split; [right; eauto|].
              intros u' [= <-]. right. exists id, v, l, c.
              split; reflexivity.
           ++ rewrite (main_step_raise_id _ _ _ _ _ _ _ _ _ _ Hu Ht He Hv Hs Hi)
                in H.
              injection H as <- <-. split; [right; eauto | discriminate].
      * rewrite (main_step_raise_lookup _ _ _ _ _ _ _ Hu Ht He Hv Hs) in H.
        injection H as <- <-. split; [right; eauto | discriminate].
  - rewrite (main_step_skip_early _ _ _ url Hu (or_intror (or_introl He))) in H.
    injection H as <- <-. split; [left; reflexivity|].
    intros u' [= <-]. left. reflexivity.
  - rewrite (main_step_raise_extract _ _ _ _ _ Hu Ht He) in H.
    injection H as <- <-. split; [left; reflexivity | discriminate].
Qed.

Lemma main_loop_effect records updates tr res tr' :
  main_loop records updates tr = (res, tr') ->
  (exists lookups,
     tr' = tr ++ lookups
     /\ List.length lookups <= List.length records
     /\ Forall is_lookup lookups)
  /\ (forall u',
        res = Ok u' ->
        exists added,
          u' = updates ++ added
          /\ List.length added <= List.length records
          /\ Forall (fun entry =>
                       exists record id v l c,
                         In record records
                         /\ getitem_str record "id" = Ok id
                         /\ entry = entry_of id v l c)
                    added).
Proof.
  revert updates tr. induction records as [|record rest IH]; intros updates tr H.
  - cbn in H. injection H as <- <-. split.
    + exists []. rewrite app_nil_r. repeat split; [cbn; lia | constructor].
    + intros u' [= <-]. exists []. rewrite app_nil_r.
      repeat split; [cbn; lia | constructor].
  - cbn [main_loop] in H. unfold bind in H.
    destruct (main_step record updates tr) as [[u1|e] tr1] eqn:Hstep.
    + destruct (main_step_effect _ _ _ _ _ Hstep) as [Htr Hu].
      destruct (IH _ _ H) as [(lk & -> & Hlen & Hall) Hrest].
      split.
      * destruct Htr as [-> | (vid & ->)].
        -- exists lk. repeat split; [cbn; lia | exact Hall].
        -- exists (EvGet (stats_url vid) [] [] :: lk).
           rewrite <- app_assoc. repeat split; [cbn; lia|].
           constructor; [exists vid; reflexivity | exact Hall].
      * intros u' Hres. destruct (Hrest u' Hres) as (added & -> & Hl & Ha).
        assert (Ha' : Forall (fun entry =>
                       exists record0 id v l c,
                         In record0 (record :: rest)
                         /\ getitem_str record0 "id" = Ok id
                         /\ entry = entry_of id v l c) added).
        { eapply Forall_impl; [|exact Ha].
          intros entry (r & id & v & l & c & Hin & Hid & ->).
          exists r, id, v, l, c. repeat split; [right; exact Hin | exact Hid]. }
        destruct (Hu u1 eq_refl) as [-> | (id & v & l & c & Hid & ->)].
        -- exists added. repeat split; [cbn; lia | exact Ha'].
        -- exists (entry_of id v l c :: added). rewrite <- app_assoc.
           repeat split; [cbn; lia|].
           constructor; [|exact Ha'].
           exists record, id, v, l, c.
           repeat split; [left; reflexivity | exact Hid].
    + injection H as <- <-.
      destruct (main_step_effect _ _ _ _ _ Hstep) as [Htr _].
      split; [|discriminate].
      destruct Htr as [-> | (vid & ->)].
      * exists []. rewrite app_nil_r. repeat split; [cbn; lia | constructor].
      * exists [EvGet (stats_url vid) [] []].
        repeat split; [cbn; lia|].
        constructor; [exists vid; reflexivity | constructor].
Qed.

Lemma lookups_no_write lookups :
  Forall is_lookup lookups ->
  count_patches lookups = 0 /\ count_sleeps lookups = 0.
Proof.
  unfold count_patches, count_sleeps.
  induction 1 as [|e es (vid & ->) _ [IH1 IH2]]; [split; reflexivity|].
  cbn. split; assumption.
Qed.

(** X14.  The row loop only appends: what it returns is the list it was given
    followed by at most one entry per record, and every entry added carries
    the id of one of the records. *)
Theorem main_loop_only_appends
  (records updates updates' : list value) (tr tr' : trace) :
  main_loop records updates tr = (Ok updates', tr') ->
  exists added,
    updates' = updates ++ added
    /\ List.length added <= List.length records
    /\ Forall (fun entry =>
                 exists record id v l c,
                   In record records
                   /\ getitem_str record "id" = Ok id
                   /\ entry = entry_of id v l c)
              added.
Proof.
  intros H. destruct (main_loop_effect _ _ _ _ _ H) as [_ Hu].
  apply Hu. reflexivity.
Qed.

(** X15.  The row loop, whether it returns or raises, issues nothing but GETs of
    the statistics endpoint, at most one per record: no PATCH and no pause
    happens before the loop is over. *)
Theorem main_loop_only_looks_up
  (records updates : list value) (tr tr' : trace)
  (res : result (list value)) :
  main_loop records updates tr = (res, tr') ->
  exists lookups,
    tr' = tr ++ lookups
    /\ List.length lookups <= List.length records
    /\ Forall is_lookup lookups
    /\ count_patches lookups = 0
    /\ count_sleeps lookups = 0.
Proof.
  intros H. destruct (main_loop_effect _ _ _ _ _ H) as [(lk & -> & Hl & Ha) _].
  exists lk. destruct (lookups_no_write lk Ha) as [H1 H2].
  repeat split; assumption.
Qed.

(** X16.  When a record makes the row loop raise, [main] raises with it and
    writes nothing: the entries gathered from the records before it are
    lost. *)
Theorem main_writes_nothing_on_raise
  (fuel : nat) (tr tr1 tr2 : trace) (records : list value) (e : exn) :
  get_airtable_records fuel tr = (Ok (Some records), tr1) ->
  main_loop records [] tr1 = (Raise e, tr2) ->
  main fuel tr = (Raise e, tr2)
  /\ exists lookups,
       tr2 = tr1 ++ lookups
       /\ Forall is_lookup lookups
       /\ count_patches lookups = 0.
Proof.
  intros Hf Hl. split.
  - unfold main, bind. rewrite Hf, Hl. reflexivity.
  - destruct (main_loop_effect _ _ _ _ _ Hl) as [(lk & -> & _ & Ha) _].
    exists lk. destruct (lookups_no_write lk Ha) as [H1 _].
    repeat split; assumption.
Qed.

(** X17.  When the fetch and the row loop return and no PATCH raises, [main]
    ends normally after sending the gathered entries in groups of ten; with
    no entry it sends nothing. *)
Theorem main_writes_gathered_updates
  (fuel : nat) (tr tr1 tr2 : trace) (records updates : list value) :
  (forall t, exists r, network t = Ok r) ->
  get_airtable_records fuel tr = (Ok (Some records), tr1) ->
  main_loop records [] tr1 = (Ok updates, tr2) ->
  main fuel tr = (Ok (Some tt), tr2 ++ flat_map patch_events (chunks updates))
  /\ (updates = [] -> main fuel tr = (Ok (Some tt), tr2))
  /\ count_patches (flat_map patch_events (chunks updates))
     = (List.length updates + 9) / 10.
Proof.
  intros Hnet Hf Hl.
  assert (Hmain : main fuel tr
                  = (Ok (Some tt), tr2 ++ flat_map patch_events (chunks updates))).
  { unfold main, bind. rewrite Hf, Hl. destruct updates as [|u us].
    - cbn. rewrite app_nil_r. reflexivity.
    - rewrite (batch_update_trace (u :: us) tr2 Hnet). reflexivity. }
  split; [exact Hmain|]. split.
  - intros ->. rewrite Hmain. cbn. rewrite app_nil_r. reflexivity.
  - rewrite count_patches_events. unfold chunks. apply chunks_aux_count. lia.
Qed.

(** X6.  A URL field that is truthy and not a string (a number, [true], a list
    of attachments, an object) makes the row raise AttributeError before
    any lookup. *)
Theorem main_step_raises_on_non_string_url
  (record url : value) (updates : list value) (tr : trace) :
  asset_link record = Ok url ->
  truthy url = true ->
  (forall s, url <> PStr s) ->
  main_step record updates tr = (Raise AttributeError, tr).
Proof.
  intros Hu Ht Hn. apply (main_step_raise_extract _ _ _ url); try assumption.
  unfold extract_video_id. rewrite Ht. cbn [negb].
  destruct url; try reflexivity. destruct (Hn s eq_refl).
Qed.

End Script.

(** ** Examples *)

(** Twenty-five entries against a network that always answers. *)
Lemma batch_writer_groups_witness :
  (forall t, exists r, Example.respond 200 (PDict []) t = Ok r)
  /\ exists groups : list (list value),
       batch_update_airtable "key" "app" "Videos"
         (Example.respond 200 (PDict [])) (repeat Example.entry 25) []
       = (Ok tt, [] ++ flat_map (patch_events "key" "app" "Videos") groups)
       /\ concat groups = repeat Example.entry 25
       /\ Forall (fun g => 1 <= List.length g <= 10) groups
       /\ (forall i, S i < List.length groups ->
                     List.length (nth i groups []) = 10)
       /\ count_patches (flat_map (patch_events "key" "app" "Videos") groups)
          = List.length groups
       /\ List.length groups = (List.length (repeat Example.entry 25) + 9) / 10
       /\ (repeat Example.entry 25 = [] -> groups = [])
       /\ (List.length (repeat Example.entry 25) = 25 ->
           map (@List.length value) groups = [10; 10; 5]).
Proof.
  split.
  - intros t. eexists. reflexivity.
  - apply (batch_writer_groups "key" "app" "Videos"
             (Example.respond 200 (PDict [])) (repeat Example.entry 25) []).
    intros t. eexists. reflexivity.
Defined.

(** One entry: one PATCH, then one pause. *)
Lemma batch_writer_pause_witness :
  [Example.entry] <> []
  /\ (forall t, exists r, Example.respond 200 (PDict []) t = Ok r)
  /\ exists issued : trace,
       batch_update_airtable "key" "app" "Videos"
         (Example.respond 200 (PDict [])) [Example.entry] []
       = (Ok tt, [] ++ issued)
       /\ 1 <= count_patches issued
       /\ count_sleeps issued = count_patches issued
       /\ List.last issued (EvSleep 0) = EvSleep 250
       /\ (forall i url h b,
             nth_error issued i = Some (EvPatch url h b) ->
             nth_error issued (S i) = Some (EvSleep 250)).
Proof.
  split; [discriminate|]. split.
  - intros t. eexists. reflexivity.
  - apply (batch_writer_pause_after_every_request "key" "app" "Videos"
             (Example.respond 200 (PDict [])) [Example.entry] []).
    + discriminate.
    + intros t. eexists. reflexivity.
Defined.

(** A 200 response with an empty [items] array. *)
Lemma lookup_none_witness :
  Example.respond 200 (PDict [("items", PList [])])
    ([] ++ [EvGet (stats_url "key" "abc") [] []])
  = Ok {| status_code := 200; json := Ok (PDict [("items", PList [])]) |}
  /\ get_youtube_stats Example.no_unicode_digits "key"
       (Example.respond 200 (PDict [("items", PList [])])) "abc" []
     = (Ok PNone, [] ++ [EvGet (stats_url "key" "abc") [] []]).
Proof.
  split; [reflexivity|].
  apply (lookup_none_on_failure_or_no_items Example.no_unicode_digits "key"
           (Example.respond 200 (PDict [("items", PList [])])) "abc" []
           {| status_code := 200; json := Ok (PDict [("items", PList [])]) |}).
  - reflexivity.
  - right. exists [("items", PList [])]. split; [reflexivity|].
    right. reflexivity.
Defined.

(** A 200 response with no comment counter: the comments default to 0. *)
Lemma lookup_counters_witness :
  let st := [("viewCount", PStr "10"); ("likeCount", PStr "2")] in
  get_youtube_stats Example.no_unicode_digits "key" (Example.respond 200 Example.partial_stats) "abc" []
  = (Ok (stats_dict 10 2 0), [] ++ [EvGet (stats_url "key" "abc") [] []])
  /\ counter_or_zero Example.no_unicode_digits st "commentCount" = Ok 0%Z.
Proof.
  pose proof (lookup_counters_default_zero_or_raise Example.no_unicode_digits "key"
                (Example.respond 200 Example.partial_stats) "abc" []
                {| status_code := 200; json := Ok Example.partial_stats |}
                [("items",
                  PList [PDict [("statistics",
                                 PDict [("viewCount", PStr "10");
                                        ("likeCount", PStr "2")])]])]
                [("statistics",
                  PDict [("viewCount", PStr "10"); ("likeCount", PStr "2")])]
                [("viewCount", PStr "10"); ("likeCount", PStr "2")] []
                eq_refl eq_refl eq_refl eq_refl eq_refl) as (Hzero & Hok & _).
  split.
  - apply Hok; reflexivity.
  - apply Hzero. reflexivity.
Defined.

(** A page with neither [records] nor [offset]: no record, one request. *)
Lemma fetcher_witness :
  Example.respond 200 (PDict [])
    ([] ++ [fetch_event "key" "app" "Videos" "Grid" PNone])
  = Ok {| status_code := 200; json := Ok (PDict []) |}
  /\ fetch_loop "key" "app" "Videos" "Grid" (Example.respond 200 (PDict []))
       1 PNone [] []
     = (Ok (Some []), [] ++ [fetch_event "key" "app" "Videos" "Grid" PNone]).
Proof.
  split; [reflexivity|].
  destruct (fetcher_missing_records_and_falsy_cursor "key" "app" "Videos"
              "Grid" (Example.respond 200 (PDict [])) 0 PNone [] []
              {| status_code := 200; json := Ok (PDict []) |} []
              eq_refl eq_refl) as [Hmissing _].
  destruct (Hmissing eq_refl) as [_ Hstop].
  apply Hstop. left. reflexivity.
Defined.

(** A short link, as it is and with slashes around its identifier. *)
Lemma extract_short_link_witness :
  plain_host "youtu.be" = true
  /\ contains "youtu.be" "youtu.be" = true
  /\ plain_id "dQw4w9WgXcQ" = true
  /\ extract_video_id Example.plain_unquote Example.any_netloc
       Example.any_netloc (PStr "https://youtu.be/dQw4w9WgXcQ")
     = Ok (Some "dQw4w9WgXcQ")
  /\ extract_video_id Example.plain_unquote Example.any_netloc
       Example.any_netloc (PStr "https://youtu.be/dQw4w9WgXcQ/")
     = Ok (Some "dQw4w9WgXcQ")
  /\ extract_video_id Example.plain_unquote Example.any_netloc
       Example.any_netloc (PStr "https://youtu.be//dQw4w9WgXcQ//")
     = Ok (Some "dQw4w9WgXcQ").
Proof.
  do 3 (split; [reflexivity|]).
  destruct (extract_short_link Example.plain_unquote Example.any_netloc
              Example.any_netloc "youtu.be" "dQw4w9WgXcQ"
              eq_refl eq_refl eq_refl) as (Hplain & _ & _ & _ & Hslashes).
  split; [exact Hplain|]. split.
  - exact (proj2 (proj2 (Hslashes "" "/" eq_refl eq_refl))).
  - exact (proj2 (proj2 (Hslashes "/" "//" eq_refl eq_refl))).
Defined.

(** A URL of another site, even with a [v] parameter. *)
Lemma extract_none_witness :
  extract_video_id Example.plain_unquote Example.any_netloc
    Example.any_netloc (PStr "https://vimeo.com/12345?v=abc")
  = Ok None.
Proof.
  apply (extract_none_without_known_host Example.plain_unquote
           Example.any_netloc Example.any_netloc).
  right. right. eexists. eexists.
  split; [reflexivity|]. split; [reflexivity|]. split; reflexivity.
Defined.

(** C7, as stated, fails: the host [notyoutube.com] is neither the
    short-link domain nor the main domain (nor a subdomain of either), but
    its name holds ["youtube.com"], which is all the extractor tests: the
    [v] parameter is returned. *)
Lemma extract_accepts_lookalike_host :
  Urllib.urlparse Example.any_netloc Example.any_netloc
    "https://notyoutube.com/watch?v=abc"
  = Ok {| Urllib.scheme := "https"; Urllib.netloc := "notyoutube.com";
          Urllib.path := "/watch"; Urllib.params := "";
          Urllib.query := "v=abc"; Urllib.fragment := "" |}
  /\ extract_video_id Example.plain_unquote Example.any_netloc
       Example.any_netloc (PStr "https://notyoutube.com/watch?v=abc")
     = Ok (Some "abc").
Proof. split; reflexivity. Qed.

(** C2, as stated, fails: the extractor returns the empty string on a
    short link with an empty path, and raises on a netloc with an unmatched
    bracket. *)
Lemma extract_empty_or_raises :
  extract_video_id Example.plain_unquote Example.any_netloc
    Example.any_netloc (PStr "https://youtu.be/") = Ok (Some "")
  /\ extract_video_id Example.plain_unquote Example.any_netloc
       Example.any_netloc (PStr "http://[") = Raise ValueError.
Proof. split; reflexivity. Qed.

(** C3, as stated, fails: a view counter that is not an integer literal
    makes the lookup raise. *)
Lemma lookup_raises_on_malformed_counter :
  get_youtube_stats Example.no_unicode_digits "key" (Example.respond 200 Example.malformed_stats)
    "abc" []
  = (Raise ValueError, [EvGet (stats_url "key" "abc") [] []]).
Proof. reflexivity. Qed.

(** C1, as stated, fails: a record whose URL [urlparse] rejects yields no
    identifier, and instead of being skipped it ends the run with
    ValueError, before any lookup or write.  And a record whose identifier
    is the empty string (not [None]) is skipped without a lookup, even when
    the lookup of that identifier would return counters. *)
Lemma run_aborts_on_rejected_url :
  let net := Example.respond 200
               (PDict [("records", PList [Example.bracket_record])]) in
  let stats_net := Example.respond 200 Example.partial_stats in
  extract_video_id Example.plain_unquote Example.any_netloc
    Example.any_netloc (PStr "https://youtu.be/") = Ok (Some "")
  /\ fst (get_youtube_stats Example.no_unicode_digits "ytkey" stats_net "" []) = Ok (stats_dict 10 2 0)
  /\ main_step Example.plain_unquote Example.any_netloc Example.any_netloc
       Example.no_unicode_digits
       "ytkey" stats_net Example.empty_id_record [] []
     = (Ok [], [])
  /\ asset_link Example.bracket_record = Ok (PStr "http://[")
  /\ extract_video_id Example.plain_unquote Example.any_netloc
       Example.any_netloc (PStr "http://[") = Raise ValueError
  /\ main_step Example.plain_unquote Example.any_netloc Example.any_netloc
       Example.no_unicode_digits
       "ytkey" net Example.bracket_record [] []
     = (Raise ValueError, [])
  /\ main Example.plain_unquote Example.any_netloc Example.any_netloc
       Example.no_unicode_digits
       "key" "app" "Videos" "Grid" "ytkey" net 5 []
     = (Raise ValueError, [fetch_event "key" "app" "Videos" "Grid" PNone]).
Proof. repeat split; reflexivity. Qed.

(** A watch link with a second parameter. *)
Lemma extract_watch_parameter_witness :
  extract_video_id Example.plain_unquote Example.any_netloc
    Example.any_netloc (PStr "https://www.youtube.com/watch?v=dQw4w9WgXcQ&t=42s")
  = Ok (Some "dQw4w9WgXcQ").
Proof.
  apply (extract_watch_parameter Example.plain_unquote Example.any_netloc
           Example.any_netloc "www.youtube.com" "dQw4w9WgXcQ" "&t=42s");
    try reflexivity.
  right. reflexivity.
Defined.

(** A blank [v] is dropped and the next one is taken. *)
Lemma extract_first_v_parameter_witness :
  extract_video_id Example.plain_unquote Example.any_netloc
    Example.any_netloc (PStr "https://www.youtube.com/watch?v=&v=abc&v=def")
  = Ok (Some "abc").
Proof.
  exact (extract_first_v_parameter Example.plain_unquote Example.any_netloc
           Example.any_netloc "https://www.youtube.com/watch?v=&v=abc&v=def"
           {| Urllib.scheme := "https"; Urllib.netloc := "www.youtube.com";
              Urllib.path := "/watch"; Urllib.params := "";
              Urllib.query := "v=&v=abc&v=def"; Urllib.fragment := "" |}
           eq_refl eq_refl eq_refl eq_refl).
Defined.

(** A short link with slashes around and inside its path. *)
Lemma extract_short_link_strips_slashes_witness :
  exists id a b,
    extract_video_id Example.plain_unquote Example.any_netloc
      Example.any_netloc (PStr "https://youtu.be//abc/def//") = Ok (Some id)
    /\ "//abc/def//" = (a ++ id ++ b)%string
    /\ all_char "/" a = true /\ all_char "/" b = true
    /\ PyStr.startswith "/" id = false
    /\ ends_with "/" id = false.
Proof.
  exact (extract_short_link_strips_slashes Example.plain_unquote
           Example.any_netloc Example.any_netloc "https://youtu.be//abc/def//"
           {| Urllib.scheme := "https"; Urllib.netloc := "youtu.be";
              Urllib.path := "//abc/def//"; Urllib.params := "";
              Urllib.query := ""; Urllib.fragment := "" |}
           eq_refl eq_refl).
Defined.

(** A live link with a trailing segment. *)
Lemma extract_live_id_has_no_slash_witness :
  exists id,
    extract_video_id Example.plain_unquote Example.any_netloc
      Example.any_netloc (PStr "https://www.youtube.com/live/abc/x")
    = Ok (Some id)
    /\ PyStr.mem_char "/" id = false.
Proof.
  exact (extract_live_id_has_no_slash Example.plain_unquote
           Example.any_netloc Example.any_netloc
           "https://www.youtube.com/live/abc/x"
           {| Urllib.scheme := "https"; Urllib.netloc := "www.youtube.com";
              Urllib.path := "/live/abc/x"; Urllib.params := "";
              Urllib.query := ""; Urllib.fragment := "" |}
           eq_refl eq_refl eq_refl eq_refl).
Defined.

(** A short link pasted without [https://]. *)
Lemma extract_none_without_scheme_witness :
  extract_video_id Example.plain_unquote Example.any_netloc
    Example.any_netloc (PStr "youtu.be/abc")
  = Ok None.
Proof.
  exact (extract_none_without_scheme Example.plain_unquote Example.any_netloc
           Example.any_netloc "y" "outu.be/abc" eq_refl eq_refl).
Defined.

(** A URL field that holds attachments. *)
Lemma main_step_non_string_url_witness :
  main_step Example.plain_unquote Example.any_netloc Example.any_netloc
       Example.no_unicode_digits
    "ytkey" (Example.respond 200 Example.partial_stats)
    Example.attachment_record [] []
  = (Raise AttributeError, []).
Proof.
  apply (main_step_raises_on_non_string_url Example.plain_unquote
           Example.any_netloc Example.any_netloc
       Example.no_unicode_digits "ytkey"
           (Example.respond 200 Example.partial_stats)
           Example.attachment_record
           (PList [PDict [("url", PStr "https://youtu.be/abc")]]) [] []).
  - reflexivity.
  - reflexivity.
  - intros s. discriminate.
Defined.

(** A lookup that returns counters. *)
Lemma lookup_result_shape_witness :
  (PDict [("views", PInt 10); ("likes", PInt 2); ("comments", PInt 0)] = PNone
   /\ truthy (PDict [("views", PInt 10); ("likes", PInt 2);
                     ("comments", PInt 0)]) = false)
  \/ (exists v l c,
        PDict [("views", PInt 10); ("likes", PInt 2); ("comments", PInt 0)]
        = stats_dict v l c
        /\ truthy (PDict [("views", PInt 10); ("likes", PInt 2);
                          ("comments", PInt 0)]) = true).
Proof.
  exact (lookup_result_shape Example.no_unicode_digits "key" (Example.respond 200 Example.partial_stats)
           "abc" [] [EvGet (stats_url "key" "abc") [] []]
           (PDict [("views", PInt 10); ("likes", PInt 2); ("comments", PInt 0)])
           eq_refl).
Defined.

(** A first item with no [statistics]. *)
Lemma lookup_raises_on_malformed_item_witness :
  get_youtube_stats Example.no_unicode_digits "key"
    (Example.respond 200 (PDict [("items", PList [PDict []])])) "abc" []
  = (Raise KeyError, [] ++ [EvGet (stats_url "key" "abc") [] []]).
Proof.
  destruct (lookup_raises_on_malformed_item Example.no_unicode_digits "key"
              (Example.respond 200 (PDict [("items", PList [PDict []])]))
              "abc" []
              {| status_code := 200;
                 json := Ok (PDict [("items", PList [PDict []])]) |}
              [("items", PList [PDict []])] (PDict []) []
              eq_refl eq_refl eq_refl eq_refl) as [Hkey _].
  apply (Hkey []); reflexivity.
Defined.


(** Two pages: two requests, the second with the cursor of the first. *)
Lemma fetcher_follows_cursors_witness :
  fetch_loop "key" "app" "Videos" "Grid" Example.two_pages 5 PNone [] []
  = (Ok (Some ([] ++ concat (map fst [([Example.link_record], PStr "itr1")])
                  ++ [Example.empty_id_record])),
     [] ++ fetch_events "key" "app" "Videos" "Grid" PNone
             [([Example.link_record], PStr "itr1")]).
Proof.
  apply (fetcher_follows_cursors "key" "app" "Videos" "Grid" Example.two_pages
           5 PNone [] [] [([Example.link_record], PStr "itr1")]
           [Example.empty_id_record]).
  - cbn [pages_served].
    eexists. eexists. split; [reflexivity|]. split; [reflexivity|].
    split; [reflexivity|]. split; [reflexivity|]. split; [reflexivity|].
    eexists. eexists. split; [reflexivity|]. split; [reflexivity|].
    split; [reflexivity|]. exact I.
  - cbn. lia.
Defined.

(** A server that repeats the same cursor: seven requests and no result. *)
Lemma fetcher_runs_while_cursor_witness :
  exists tr',
    fetch_loop "key" "app" "Videos" "Grid"
      (Example.respond 200 (PDict [("records", PList []);
                                   ("offset", PStr "itrSame")]))
      7 PNone [] []
    = (Ok None, tr')
    /\ List.length tr' = List.length (@nil event) + 7
    /\ count_patches tr' = count_patches [].
Proof.
  apply (fetcher_runs_while_cursor "key" "app" "Videos" "Grid"
           (Example.respond 200 (PDict [("records", PList []);
                                        ("offset", PStr "itrSame")])) 7).
  intros tr offset. eexists. eexists. eexists. eexists.
  split; [reflexivity|]. split; [reflexivity|]. split; [reflexivity|].
  split; reflexivity.
Defined.

(** Twenty-five entries and a network whose third action, the second
    PATCH, raises: one group sent, one pause, the raising PATCH, and
    nothing for the last five entries. *)
Lemma batch_writer_stops_witness :
  batch_update_airtable "key" "app" "Videos" (Example.fail_at 3)
    (repeat Example.entry 25) []
  = (Raise ConnectionError,
     [] ++ flat_map (patch_events "key" "app" "Videos")
             (firstn 1 (chunks (repeat Example.entry 25)))
        ++ [patch_request "key" "app" "Videos"
              (nth 1 (chunks (repeat Example.entry 25)) [])]).
Proof.
  destruct (batch_writer_stops_at_raising_patch "key" "app" "Videos"
              (Example.fail_at 3) (repeat Example.entry 25) [] 1
              ConnectionError) as [Hrun _].
  - cbn. lia.
  - intros j Hj. assert (j = 0) as -> by lia. eexists. reflexivity.
  - reflexivity.
  - exact Hrun.
Defined.

(** Two records, one with an identifier and one without. *)
Lemma main_loop_only_appends_witness :
  exists added,
    [entry_of (PStr "rec3") 10 2 0] = [] ++ added
    /\ List.length added
       <= List.length [Example.link_record; Example.empty_id_record]
    /\ Forall (fun entry =>
                 exists record id v l c,
                   In record [Example.link_record; Example.empty_id_record]
                   /\ getitem_str record "id" = Ok id
                   /\ entry = entry_of id v l c)
              added.
Proof.
  exact (main_loop_only_appends Example.plain_unquote Example.any_netloc
           Example.any_netloc
       Example.no_unicode_digits "ytkey"
           (Example.respond 200 Example.partial_stats)
           [Example.link_record; Example.empty_id_record] []
           [entry_of (PStr "rec3") 10 2 0]
           [] [EvGet (stats_url "ytkey" "abc") [] []] eq_refl).
Defined.

(** The same two records: one lookup, no write. *)
Lemma main_loop_only_looks_up_witness :
  exists lookups,
    [EvGet (stats_url "ytkey" "abc") [] []] = [] ++ lookups
    /\ List.length lookups
       <= List.length [Example.link_record; Example.empty_id_record]
    /\ Forall (is_lookup "ytkey") lookups
    /\ count_patches lookups = 0
    /\ count_sleeps lookups = 0.
Proof.
  exact (main_loop_only_looks_up Example.plain_unquote Example.any_netloc
           Example.any_netloc
       Example.no_unicode_digits "ytkey"
           (Example.respond 200 Example.partial_stats)
           [Example.link_record; Example.empty_id_record] []
           [] [EvGet (stats_url "ytkey" "abc") [] []]
           (Ok [entry_of (PStr "rec3") 10 2 0]) eq_refl).
Defined.

(** A good record followed by one whose URL [urlparse] rejects: the run
    raises after one lookup and writes nothing. *)
Lemma main_writes_nothing_on_raise_witness :
  let net := Example.respond 200
               (Example.table_and_stats
                  [Example.link_record; Example.bracket_record]) in
  main Example.plain_unquote Example.any_netloc Example.any_netloc
       Example.no_unicode_digits
    "key" "app" "Videos" "Grid" "ytkey" net 5 []
  = (Raise ValueError,
     [fetch_event "key" "app" "Videos" "Grid" PNone;
      EvGet (stats_url "ytkey" "abc") [] []]).
Proof.
  destruct (main_writes_nothing_on_raise Example.plain_unquote
              Example.any_netloc Example.any_netloc
       Example.no_unicode_digits
              "key" "app" "Videos" "Grid" "ytkey"
              (Example.respond 200
                 (Example.table_and_stats
                    [Example.link_record; Example.bracket_record]))
              5 [] [fetch_event "key" "app" "Videos" "Grid" PNone]
              [fetch_event "key" "app" "Videos" "Grid" PNone;
               EvGet (stats_url "ytkey" "abc") [] []]
              [Example.link_record; Example.bracket_record] ValueError
              eq_refl eq_refl) as [Hrun _].
  exact Hrun.
Defined.

(** One good record: one fetch, one lookup, one PATCH, one pause. *)
Lemma main_writes_gathered_updates_witness :
  let net := Example.respond 200
               (Example.table_and_stats [Example.link_record]) in
  main Example.plain_unquote Example.any_netloc Example.any_netloc
       Example.no_unicode_digits
    "key" "app" "Videos" "Grid" "ytkey" net 5 []
  = (Ok (Some tt),
     [fetch_event "key" "app" "Videos" "Grid" PNone;
      EvGet (stats_url "ytkey" "abc") [] []]
       ++ flat_map (patch_events "key" "app" "Videos")
            (chunks [entry_of (PStr "rec3") 10 2 0])).
Proof.
  destruct (main_writes_gathered_updates Example.plain_unquote
              Example.any_netloc Example.any_netloc
       Example.no_unicode_digits
              "key" "app" "Videos" "Grid" "ytkey"
              (Example.respond 200
                 (Example.table_and_stats [Example.link_record]))
              5 [] [fetch_event "key" "app" "Videos" "Grid" PNone]
              [fetch_event "key" "app" "Videos" "Grid" PNone;
               EvGet (stats_url "ytkey" "abc") [] []]
              [Example.link_record] [entry_of (PStr "rec3") 10 2 0])
    as [Hrun _].
  - intros t. eexists. reflexivity.
  - reflexivity.
  - reflexivity.
  - exact Hrun.
Defined.
